(** * Vector-store query compiler: a shallow embedding

    The development follows two vector stores of the repository:

    - [libs/sqlserver/langchain_sqlserver/vectorstores.py]
      (class [SQLServer_VectorStore]): the metadata filter compiler, the
      result mapper, batch ingest, delete and the MMR search;
    - [libs/azure-ai/langchain_azure_ai/vectorstores/azure_cosmos_db_no_sql.py]
      (class [AzureCosmosDBNoSqlVectorSearch]): the query builder, the result
      mapper, delete and the MMR search.

    Python values are an inductive type, exceptions are an error type,
    the effects of a method (log records, the table, the uuid source, the
    calls made to the embedding provider) are threaded through a state. *)

From Stdlib Require Import ZArith List String Ascii Bool Lia DecimalString QArith.
Import ListNotations.

Set Warnings "-register-all".

Open Scope string_scope.
Open Scope list_scope.

Infix "+++" := String.append (at level 60, right associativity).

(** ** Python strings *)

Definition nl : string := String "010"%char EmptyString.
Definition dquote : ascii := "034"%char.
Definition squote : ascii := "039"%char.
Definition backslash : ascii := "092"%char.

Definition str_of_Z (z : Z) : string := NilEmpty.string_of_int (Z.to_int z).
Definition str_of_nat (n : nat) : string := str_of_Z (Z.of_nat n).

(** [sep.join(parts)] *)
Definition join (sep : string) (parts : list string) : string :=
  String.concat sep parts.

(** [s.startswith(prefix)] *)
Definition startswith (s prefix : string) : bool := String.prefix prefix s.

Definition code (c : ascii) : nat := nat_of_ascii c.
Definition between_codes (lo hi : nat) (c : ascii) : bool :=
  (lo <=? code c)%nat && (code c <=? hi)%nat.

Definition is_upper (c : ascii) : bool := between_codes 65 90 c.
Definition is_lower (c : ascii) : bool := between_codes 97 122 c.
Definition is_digit (c : ascii) : bool := between_codes 48 57 c.

(** [s.lower()], on ASCII text. *)
Definition lower_char (c : ascii) : ascii :=
  if is_upper c then ascii_of_nat (code c + 32) else c.

Fixpoint lower (s : string) : string :=
  match s with
  | EmptyString => EmptyString
  | String c rest => String (lower_char c) (lower rest)
  end.

(** [s.isidentifier()], on ASCII text: a letter or an underscore, then
    letters, digits and underscores. *)
Definition is_id_start (c : ascii) : bool :=
  is_upper c || is_lower c || (code c =? 95)%nat.
Definition is_id_continue (c : ascii) : bool := is_id_start c || is_digit c.

Fixpoint all_chars (p : ascii -> bool) (s : string) : bool :=
  match s with
  | EmptyString => true
  | String c rest => p c && all_chars p rest
  end.

Definition isidentifier (s : string) : bool :=
  match s with
  | EmptyString => false
  | String c rest => is_id_start c && all_chars is_id_continue rest
  end.

(** The characters [str.split()] treats as separators, on ASCII text:
    tab, newline, vertical tab, form feed, carriage return, the four
    information separators and the space. *)
Definition is_space (c : ascii) : bool :=
  between_codes 9 13 c || between_codes 28 32 c.

(** [s.split()]: runs of separators split the text, no empty piece is kept.
    [cur] holds the piece being read, reversed. *)
Fixpoint rev_string (acc s : string) : string :=
  match s with
  | EmptyString => acc
  | String c rest => rev_string (String c acc) rest
  end.

Fixpoint split_from (cur : string) (s : string) : list string :=
  match s with
  | EmptyString =>
      match cur with
      | EmptyString => []
      | _ => [rev_string EmptyString cur]
      end
  | String c rest =>
      if is_space c then
        match cur with
        | EmptyString => split_from EmptyString rest
        | _ => rev_string EmptyString cur :: split_from EmptyString rest
        end
      else split_from (String c cur) rest
  end.

Definition split (s : string) : list string := split_from EmptyString s.

Fixpoint contains_char (c : ascii) (s : string) : bool :=
  match s with
  | EmptyString => false
  | String d rest => Ascii.eqb c d || contains_char c rest
  end.

(** [list(s)]: the characters of a text, each a one-character text. *)
Fixpoint chars (s : string) : list string :=
  match s with
  | EmptyString => []
  | String c rest => String c EmptyString :: chars rest
  end.

Definition hex_digit (n : nat) : ascii :=
  if (n <? 10)%nat then ascii_of_nat (48 + n) else ascii_of_nat (87 + n).

(** [repr] of one character inside a text quoted with [quote]. *)
Definition repr_char (quote c : ascii) : string :=
  if Ascii.eqb c backslash then String backslash (String backslash EmptyString)
  else if Ascii.eqb c quote then String backslash (String quote EmptyString)
  else if (code c =? 9)%nat then String backslash "t"
  else if (code c =? 10)%nat then String backslash "n"
  else if (code c =? 13)%nat then String backslash "r"
  else if (code c <? 32)%nat || (code c =? 127)%nat then
    String backslash
      (String "x" (String (hex_digit (code c / 16))
                     (String (hex_digit (code c mod 16)) EmptyString)))
  else String c EmptyString.

Fixpoint repr_chars (quote : ascii) (s : string) : string :=
  match s with
  | EmptyString => EmptyString
  | String c rest => repr_char quote c +++ repr_chars quote rest
  end.

(** [repr(s)] of a text: single quotes, unless the text holds a single quote
    and no double quote. *)
Definition repr_str (s : string) : string :=
  let quote :=
    if contains_char squote s && negb (contains_char dquote s)
    then dquote else squote in
  String quote (repr_chars quote s +++ String quote EmptyString).

(** ** Python values *)

(** A float is carried by its [repr]: the code below only takes [str] of a
    float, tests its type, or hands it on.  A [uuid.UUID] object is carried
    by its rank in the sequence of uuids drawn so far. *)
Inductive pyval : Type :=
| PNone
| PBool (b : bool)
| PInt (n : Z)
| PFloat (repr : string)
| PStr (s : string)
| PList (items : list pyval)
| PTuple (items : list pyval)
| PDict (items : list (string * pyval))
| PUUID (rank : nat).

Definition uuid_text (rank : nat) : string := "uuid4-" +++ str_of_nat rank.

Fixpoint py_repr (v : pyval) : string :=
  match v with
  | PNone => "None"
  | PBool true => "True"
  | PBool false => "False"
  | PInt n => str_of_Z n
  | PFloat r => r
  | PStr s => repr_str s
  | PList xs => "[" +++ join ", " (map py_repr xs) +++ "]"
  | PTuple xs =>
      match xs with
      | [x] => "(" +++ py_repr x +++ ",)"
      | _ => "(" +++ join ", " (map py_repr xs) +++ ")"
      end
  | PDict kvs =>
      "{" +++ join ", "
                (map (fun kv => match kv with
                                | (k, x) => repr_str k +++ ": " +++ py_repr x
                                end) kvs) +++ "}"
  | PUUID n => "UUID('" +++ uuid_text n +++ "')"
  end.

(** [str(v)] *)
Definition py_str (v : pyval) : string :=
  match v with
  | PStr s => s
  | PUUID n => uuid_text n
  | _ => py_repr v
  end.

(** [type(v)], as printed. *)
Definition py_type (v : pyval) : string :=
  match v with
  | PNone => "<class 'NoneType'>"
  | PBool _ => "<class 'bool'>"
  | PInt _ => "<class 'int'>"
  | PFloat _ => "<class 'float'>"
  | PStr _ => "<class 'str'>"
  | PList _ => "<class 'list'>"
  | PTuple _ => "<class 'tuple'>"
  | PDict _ => "<class 'dict'>"
  | PUUID _ => "<class 'uuid.UUID'>"
  end.

(** [isinstance(v, str)] *)
Definition is_str (v : pyval) : bool :=
  match v with PStr _ => true | _ => false end.

(** [isinstance(v, (str, int, float))]; [bool] is a subclass of [int]. *)
Definition is_str_int_float (v : pyval) : bool :=
  match v with
  | PStr _ | PInt _ | PFloat _ | PBool _ => true
  | _ => false
  end.

(** ** Exceptions and results *)

Inductive exn : Type :=
| ValueError (msg : string)
| TypeError (msg : string)
| KeyError (key : string)
| IndexError (msg : string)
| AttributeError (msg : string)
| NotImplementedError (msg : string)
| ArgumentError (msg : string)
| UnboundLocalError (name : string)
| DBAPIError (cause : string)
| ProgrammingError (cause : string)
| Exception_ (msg : string).

Inductive result (A : Type) : Type :=
| Ok (a : A)
| Raise (e : exn).
Arguments Ok {A} a.
Arguments Raise {A} e.

Definition bind {A B : Type} (r : result A) (k : A -> result B) : result B :=
  match r with
  | Ok a => k a
  | Raise e => Raise e
  end.

Notation "x <- r ;; k" := (bind r (fun x => k))
  (at level 61, r at next level, right associativity).
Notation "' pat <- r ;; k" := (bind r (fun x => match x with pat => k end))
  (at level 61, pat pattern, r at next level, right associativity).


(** A list comprehension [[f(x) for x in xs]] whose body can raise. *)
Fixpoint for_each {A B : Type} (f : A -> result B) (xs : list A)
  : result (list B) :=
  match xs with
  | [] => Ok []
  | x :: rest => y <- f x ;; ys <- for_each f rest ;; Ok (y :: ys)
  end.

(** Iterating a value: a list or tuple gives its items, a text gives its
    characters, a dict gives its keys; anything else is not iterable. *)
Definition py_iter (what : string) (v : pyval) : result (list pyval) :=
  match v with
  | PList xs | PTuple xs => Ok xs
  | PStr s => Ok (map PStr (chars s))
  | PDict kvs => Ok (map (fun kv => PStr (fst kv)) kvs)
  | _ => Raise (TypeError what)
  end.

(** [low, high = v] *)
Definition unpack2 (v : pyval) : result (pyval * pyval) :=
  xs <- py_iter "cannot unpack non-iterable object" v ;;
  match xs with
  | [a; b] => Ok (a, b)
  | _ :: _ :: _ :: _ => Raise (ValueError "too many values to unpack (expected 2)")
  | _ => Raise (ValueError ("not enough values to unpack (expected 2, got "
                            +++ str_of_nat (List.length xs) +++ ")"))
  end.

(** [d.get(key)] on the items of a dict. *)
Fixpoint dict_get (key : string) (kvs : list (string * pyval)) : option pyval :=
  match kvs with
  | [] => None
  | (k, v) :: rest => if String.eqb k key then Some v else dict_get key rest
  end.

(** [del d[key]] *)
Definition dict_remove (key : string) (kvs : list (string * pyval))
  : list (string * pyval) :=
  filter (fun kv => negb (String.eqb (fst kv) key)) kvs.

(** [d[key] = v]: an existing key keeps its place, a new key goes last. *)
Fixpoint dict_set (key : string) (v : pyval) (kvs : list (string * pyval))
  : list (string * pyval) :=
  match kvs with
  | [] => [(key, v)]
  | (k, x) :: rest =>
      if String.eqb k key then (k, v) :: rest
      else (k, x) :: dict_set key v rest
  end.

Definition mem_str (s : string) (l : list string) : bool :=
  existsb (String.eqb s) l.

(** ** SQLAlchemy expressions

    The expression objects the relational store builds.  A Python literal
    handed to an operator or a function becomes a bound parameter
    ([BindParam]), named after the expression it is compared with; the
    statement text holds only its placeholder. *)

Inductive operator : Type :=
| op_eq | op_ne | op_lt | op_le | op_gt | op_ge
| op_in | op_not_in | op_like | op_is | op_is_not.

Inductive boolop : Type := op_and | op_or.

(** A parameter of a [text()] clause: name, value, [literal_execute]. *)
Record textbind : Type := mk_textbind {
  tb_name : string;
  tb_value : pyval;
  tb_literal_execute : bool
}.

Inductive sqlexpr : Type :=
| Column (table name : string)
| Entity (table : string)
| BindParam (key : string) (value : pyval)
| Null
| Function (name : string) (args : list sqlexpr)
| Cast (e : sqlexpr) (type_ : string)
| BinaryExpression (op : operator) (left right : sqlexpr)
| BooleanClauseList (op : boolop) (clauses : list sqlexpr)
| TextClause (sql : string) (binds : list textbind)
| Label (name : string) (e : sqlexpr)
| Asc (e : sqlexpr).

(** The name an anonymous parameter takes from the expression it is
    compared with. *)
Definition anon_key (e : sqlexpr) : string :=
  match e with
  | Function name _ => name
  | Column _ name => name
  | _ => "param"
  end.

(** [func.JSON_VALUE(column, path)]: the path is a literal, hence bound. *)
Definition func_JSON_VALUE (column : sqlexpr) (path : string) : sqlexpr :=
  Function "JSON_VALUE" [column; BindParam "JSON_VALUE" (PStr path)].

(** [Numeric(10, 2)] *)
Definition Numeric_10_2 : string := "NUMERIC(10, 2)".

(** [operators.eq(e, v)] and the like.  [None], [True] and [False] are
    the only literals that are not bound: with [=] and [!=] no such value
    reaches this point in the code below (it passes [str(v)]), with the
    ordering operators SQLAlchemy refuses them. *)
Definition operate (op : operator) (e : sqlexpr) (v : pyval) : result sqlexpr :=
  match v with
  | PNone | PBool _ =>
      match op, v with
      | op_eq, PNone => Ok (BinaryExpression op_is e Null)
      | op_ne, PNone => Ok (BinaryExpression op_is_not e Null)
      | op_eq, PBool b | op_ne, PBool b =>
          Ok (BinaryExpression op e
                (TextClause (if b then "true" else "false") []))
      | _, _ =>
          Raise (ArgumentError
                   "Only '=', '!=', 'is_()', 'is_not()', 'is_distinct_from()', 'is_not_distinct_from()' operators can be used with None/True/False")
      end
  | _ => Ok (BinaryExpression op e (BindParam (anon_key e) v))
  end.

(** [e.in_(values)], [e.nin_(values)]: one expanding parameter holds the
    list.  [e.like(pattern)]. *)
Definition in_ (e : sqlexpr) (values : list pyval) : sqlexpr :=
  BinaryExpression op_in e (BindParam (anon_key e) (PList values)).
Definition nin_ (e : sqlexpr) (values : list pyval) : sqlexpr :=
  BinaryExpression op_not_in e (BindParam (anon_key e) (PList values)).
Definition like (e : sqlexpr) (pattern : pyval) : sqlexpr :=
  BinaryExpression op_like e (BindParam (anon_key e) pattern).

(** A clause handed to [and_]/[or_]: Python [None] is coerced to [NULL]. *)
Definition as_clause (c : option sqlexpr) : sqlexpr :=
  match c with Some e => e | None => Null end.

Definition sqlalchemy_and_ (clauses : list (option sqlexpr)) : sqlexpr :=
  BooleanClauseList op_and (map as_clause clauses).
Definition sqlalchemy_or_ (clauses : list (option sqlexpr)) : sqlexpr :=
  BooleanClauseList op_or (map as_clause clauses).

(** *** Statement text and parameters

    Compiling an expression gives the statement text and the parameters
    bound to it; anonymous parameters are numbered in the order they are
    met, as in the docstring of [_create_filter_clause]:
    [JSON_VALUE(t.content_metadata, :JSON_VALUE_1) = :JSON_VALUE_2]. *)

Definition operator_text (op : operator) : string :=
  match op with
  | op_eq => " = " | op_ne => " != "
  | op_lt => " < " | op_le => " <= " | op_gt => " > " | op_ge => " >= "
  | op_in => " IN " | op_not_in => " NOT IN " | op_like => " LIKE "
  | op_is => " IS " | op_is_not => " IS NOT "
  end.

Definition boolop_text (op : boolop) : string :=
  match op with op_and => " AND " | op_or => " OR " end.

Record compiled : Type := mk_compiled {
  text : string;
  params : list (string * pyval);
  next_anon : nat
}.

Definition is_or_list (e : sqlexpr) : bool :=
  match e with BooleanClauseList op_or (_ :: _ :: _) => true | _ => false end.

Definition is_expanding (op : operator) : bool :=
  match op with op_in | op_not_in => true | _ => false end.

(** Compiling the items of a list from left to right, the numbering of
    parameters running on. *)
Definition compile_each (one : sqlexpr -> nat -> compiled)
  : list sqlexpr -> nat -> list string * list (string * pyval) * nat :=
  fix go (es : list sqlexpr) (n : nat) :=
    match es with
    | [] => ([], [], n)
    | a :: rest =>
        let c := one a n in
        match go rest (next_anon c) with
        | (ts, ps, m) => (text c :: ts, params c ++ ps, m)
        end
    end.

(** A disjunction inside a conjunction is put in parentheses. *)
Definition grouped (op : boolop) (a : sqlexpr) (c : compiled) : compiled :=
  match op with
  | op_and =>
      if is_or_list a
      then mk_compiled ("(" +++ text c +++ ")") (params c) (next_anon c)
      else c
  | op_or => c
  end.

Fixpoint compile (e : sqlexpr) (expanding : bool) (n : nat) : compiled :=
  match e with
  | Column table name => mk_compiled (table +++ "." +++ name) [] n
  | Entity table => mk_compiled (table +++ ".*") [] n
  | BindParam key v =>
      let name := key +++ "_" +++ str_of_nat (S n) in
      mk_compiled
        (if expanding then "(__[POSTCOMPILE_" +++ name +++ "])" else ":" +++ name)
        [(name, v)] (S n)
  | Null => mk_compiled "NULL" [] n
  | Function name args =>
      match compile_each (fun a n => compile a false n) args n with
      | (ts, ps, m) => mk_compiled (name +++ "(" +++ join ", " ts +++ ")") ps m
      end
  | Cast a type_ =>
      let c := compile a false n in
      mk_compiled ("CAST(" +++ text c +++ " AS " +++ type_ +++ ")")
        (params c) (next_anon c)
  | BinaryExpression op l r =>
      let cl := compile l false n in
      let cr := compile r (is_expanding op) (next_anon cl) in
      mk_compiled (text cl +++ operator_text op +++ text cr)
        (params cl ++ params cr) (next_anon cr)
  | BooleanClauseList op clauses =>
      match compile_each (fun a n => grouped op a (compile a false n)) clauses n with
      | (ts, ps, m) => mk_compiled (join (boolop_text op) ts) ps m
      end
  | TextClause sql binds =>
      mk_compiled sql (map (fun b => (tb_name b, tb_value b)) binds) n
  | Label name a =>
      let c := compile a false n in
      mk_compiled (text c +++ " AS " +++ name) (params c) (next_anon c)
  | Asc a =>
      let c := compile a false n in
      mk_compiled (text c +++ " ASC") (params c) (next_anon c)
  end.

(** [str(clause)] and [clause.compile().params] *)
Definition statement_text (e : sqlexpr) : string := text (compile e false 0).

(** ** What the two stores share *)

(** A vector of floats, each carried by its [repr]; [json.dumps] of it. *)
Definition Vector : Type := list string.

Definition json_dumps (v : Vector) : string := "[" +++ join ", " v +++ "]".

(** [langchain_core.documents.Document] *)
Record Document : Type := mk_Document {
  page_content : pyval;
  metadata : pyval
}.

(** [langchain_core.embeddings.Embeddings] *)
Record Embeddings : Type := mk_Embeddings {
  embed_documents : list string -> result (list Vector);
  embed_query : string -> result Vector
}.

(** Functions imported from outside the sources: [json.loads] on the text
    of a vector, and [maximal_marginal_relevance(query, embedding_list,
    lambda_mult, k)], which gives the selected positions in the order it
    selected them. *)
Record Imports : Type := mk_Imports {
  json_loads : string -> result Vector;
  maximal_marginal_relevance : Vector -> list Vector -> string -> Z -> list nat
}.

(** A method: from the state before to its result, or the exception it
    raises, and the state after. *)
Definition ST (S A : Type) : Type := S -> result A * S.

Definition ret {S A : Type} (a : A) : ST S A := fun w => (Ok a, w).
Definition throw {S A : Type} (e : exn) : ST S A := fun w => (Raise e, w).
Definition lift {S A : Type} (r : result A) : ST S A := fun w => (r, w).

Definition mbind {S A B : Type} (m : ST S A) (k : A -> ST S B) : ST S B :=
  fun w =>
    match m w with
    | (Ok a, w') => k a w'
    | (Raise e, w') => (Raise e, w')
    end.

Notation "x <~ m ;; k" := (mbind m (fun x => k))
  (at level 61, m at next level, right associativity).
Notation "' pat <~ m ;; k" := (mbind m (fun x => match x with pat => k end))
  (at level 61, pat pattern, m at next level, right associativity).

(** [try: body except ...: handler]; [handler] says which exceptions it
    catches. *)
Definition try_except {S A : Type} (body : ST S A)
  (handler : exn -> option (ST S A)) : ST S A :=
  fun w =>
    match body w with
    | (Ok a, w') => (Ok a, w')
    | (Raise e, w') =>
        match handler e with
        | Some h => h w'
        | None => (Raise e, w')
        end
    end.

(** ** The relational store: [SQLServer_VectorStore] *)

Module langchain_sqlserver.

Definition COMPARISONS_TO_NATIVE : list (string * operator) :=
  [("$eq", op_eq); ("$ne", op_ne)].

Definition NUMERIC_OPERATORS : list (string * operator) :=
  [("$lt", op_lt); ("$lte", op_le); ("$gt", op_gt); ("$gte", op_ge)].

Definition SPECIAL_CASED_OPERATORS : list string := ["$in"; "$nin"; "$like"].

Definition BETWEEN_OPERATOR : list string := ["$between"].

Definition LOGICAL_OPERATORS : list string := ["$and"; "$or"].

Definition SUPPORTED_OPERATORS : list string :=
  map fst COMPARISONS_TO_NATIVE ++ map fst NUMERIC_OPERATORS
  ++ SPECIAL_CASED_OPERATORS ++ BETWEEN_OPERATOR ++ LOGICAL_OPERATORS.

Definition DISTANCE : string := "distance".
Definition DISTANCE_STRATEGY : string := "distancestrategy".
Definition EMBEDDING : string := "embedding".
Definition EMBEDDING_LENGTH : string := "embedding_length".
Definition EMBEDDING_VALUES : string := "embeddingvalues".
Definition EMPTY_IDS_ERROR_MESSAGE : string := "Empty list of ids provided".
Definition INVALID_IDS_ERROR_MESSAGE : string := "Invalid list of ids provided".
Definition INVALID_INPUT_ERROR_MESSAGE : string := "Input is not valid.".
Definition INVALID_FILTER_INPUT_EXPECTED_DICT : string :=
  "Invalid filter condition. Expected a dictionary" +++ nl
  +++ "but got an empty dictionary".
(** [INVALID_FILTER_INPUT_EXPECTED_AND_OR.format(key)] *)
Definition INVALID_FILTER_INPUT_EXPECTED_AND_OR (key : string) : string :=
  "Invalid filter condition." +++ nl
  +++ "Expected $and or $or but got: " +++ key.
Definition DEFAULT_BATCH_SIZE : Z := 100.
Definition MAX_BATCH_SIZE : Z := 419.
Definition JSON_TO_VECTOR_QUERY : string :=
  "cast (:" +++ EMBEDDING_VALUES +++ " as vector(:" +++ EMBEDDING_LENGTH +++ "))".
Definition VECTOR_DISTANCE_QUERY : string :=
  nl +++ "VECTOR_DISTANCE(:" +++ DISTANCE_STRATEGY +++ "," +++ nl
  +++ "cast (:" +++ EMBEDDING +++ " as vector(:" +++ EMBEDDING_LENGTH
  +++ ")), embeddings)".

(** [d[key]] on a table of constants. *)
Fixpoint lookup {A : Type} (key : string) (d : list (string * A)) : option A :=
  match d with
  | [] => None
  | (k, a) :: rest => if String.eqb k key then Some a else lookup key rest
  end.

Definition getitem {A : Type} (d : list (string * A)) (key : string) : result A :=
  match lookup key d with
  | Some a => Ok a
  | None => Raise (KeyError key)
  end.

(** The column [self._embedding_store.content_metadata] of the table the
    store was opened on. *)
Definition content_metadata_column (table_name : string) : sqlexpr :=
  Column table_name "content_metadata".

(** [_handle_field_filter(field, value)] *)
Definition _handle_field_filter (table_name : string) (field : string)
  (value : pyval) : result sqlexpr :=
  if startswith field "$" then
    Raise (ValueError
             ("Invalid filter condition. Expected a field but got an operator: "
              +++ field))
  else if negb (isidentifier field) then
    Raise (ValueError
             ("Invalid field name: " +++ field +++ ". Expected a valid identifier."))
  else
    ' (operator, filter_value) <-
      match value with
      | PDict kvs =>
          match kvs with
          | [(operator, filter_value)] =>
              if negb (mem_str operator SUPPORTED_OPERATORS) then
                Raise (ValueError
                         ("Invalid operator: " +++ operator +++ ". Expected one of "
                          +++ py_repr (PList (map PStr SUPPORTED_OPERATORS))))
              else Ok (operator, filter_value)
          | _ =>
              Raise (ValueError
                       ("Invalid filter condition. Expected a value which "
                        +++ "is a dictionary with a single key that corresponds to an operator "
                        +++ "but got a dictionary with " +++ str_of_nat (List.length kvs)
                        +++ " keys. The first few "
                        +++ "keys are: "
                        +++ py_repr (PList (map (fun kv => PStr (fst kv)) (firstn 3 kvs)))))
          end
      | _ => Ok ("$eq", value)
      end ;;
    let column := func_JSON_VALUE (content_metadata_column table_name) ("$." +++ field) in
    match lookup operator COMPARISONS_TO_NATIVE with
    | Some operation => operate operation column (PStr (py_str filter_value))
    | None =>
    match lookup operator NUMERIC_OPERATORS with
    | Some operation =>
        numeric_operation_result <- operate operation column filter_value ;;
        if negb (is_str filter_value) then
          operate operation (Cast column Numeric_10_2) filter_value
        else Ok numeric_operation_result
    | None =>
    if mem_str operator BETWEEN_OPERATOR then
      ' (low, high) <- unpack2 filter_value ;;
      greater_operation <- getitem NUMERIC_OPERATORS "$gte" ;;
      lesser_operation <- getitem NUMERIC_OPERATORS "$lte" ;;
      lower_bound <- operate greater_operation column low ;;
      upper_bound <- operate lesser_operation column high ;;
      if negb (is_str filter_value) then
        lower_bound <- operate greater_operation (Cast column Numeric_10_2) low ;;
        upper_bound <- operate lesser_operation (Cast column Numeric_10_2) high ;;
        Ok (sqlalchemy_and_ [Some lower_bound; Some upper_bound])
      else Ok (sqlalchemy_and_ [Some lower_bound; Some upper_bound])
    else if mem_str operator SPECIAL_CASED_OPERATORS then
      _ <- (if mem_str operator ["$in"; "$nin"] then
              vals <- py_iter "object is not iterable" filter_value ;;
              for_each
                (fun val =>
                   if negb (is_str_int_float val) then
                     Raise (NotImplementedError
                              ("Unsupported type: " +++ py_type val
                               +++ " for value: " +++ py_str val))
                   else Ok tt)
                vals
            else Ok []) ;;
      if mem_str operator ["$in"] then
        vals <- py_iter "object is not iterable" filter_value ;;
        Ok (in_ column (map (fun val => PStr (py_str val)) vals))
      else if mem_str operator ["$nin"] then
        vals <- py_iter "object is not iterable" filter_value ;;
        Ok (nin_ column (map (fun val => PStr (py_str val)) vals))
      else if mem_str operator ["$like"] then
        Ok (like column (PStr (py_str filter_value)))
      else
        Raise (NotImplementedError
                 ("Operator is not implemented: " +++ operator +++ ". "))
    else Raise (NotImplementedError "")
    end end.

(** The tail shared by the [$and], [$or] and several-fields branches of
    [_create_filter_clause]: join more than one clause, hand back a single
    one as it is, refuse none. *)
Definition join_clauses (connective : list (option sqlexpr) -> sqlexpr)
  (clauses : list (option sqlexpr)) : result (option sqlexpr) :=
  if (1 <? List.length clauses)%nat then Ok (Some (connective clauses))
  else match clauses with
       | [c] => Ok c
       | _ => Raise (ValueError INVALID_FILTER_INPUT_EXPECTED_DICT)
       end.

(** [_create_filter_clause(filters)]; [None] is Python's [None]. *)
Fixpoint _create_filter_clause (table_name : string) (filters : pyval)
  : result (option sqlexpr) :=
  match filters with
  | PNone => Ok None
  | PDict kvs =>
      match kvs with
      | [] => Raise (ValueError "Got an empty dictionary for filters.")
      | [(key, value)] =>
          if startswith key "$" then
            if negb (mem_str (lower key) LOGICAL_OPERATORS) then
              Raise (ValueError (INVALID_FILTER_INPUT_EXPECTED_AND_OR key))
            else
              match value with
              | PList els =>
                  let each :=
                    (fix each (els : list pyval) : result (list (option sqlexpr)) :=
                       match els with
                       | [] => Ok []
                       | el :: rest =>
                           c <- _create_filter_clause table_name el ;;
                           cs <- each rest ;;
                           Ok (c :: cs)
                       end) in
                  if String.eqb (lower key) "$and" then
                    and_ <- each els ;;
                    join_clauses sqlalchemy_and_ and_
                  else if String.eqb (lower key) "$or" then
                    or_ <- each els ;;
                    join_clauses sqlalchemy_or_ or_
                  else Ok None
              | _ =>
                  Raise (ValueError
                           ("Expected a list, but got " +++ py_type value
                            +++ " for value: " +++ py_str value))
              end
          else
            c <- _handle_field_filter table_name key value ;;
            Ok (Some c)
      | _ =>
          match find (fun kv => startswith (fst kv) "$") kvs with
          | Some (key, _) =>
              Raise (ValueError
                       ("Invalid filter condition. Expected a field but got: "
                        +++ key))
          | None =>
              and_ <- for_each
                        (fun kv =>
                           c <- _handle_field_filter table_name (fst kv) (snd kv) ;;
                           Ok (Some c))
                        kvs ;;
              join_clauses sqlalchemy_and_ and_
          end
      end
  | _ =>
      Raise (ValueError
               ("Expected a dict, but got " +++ py_type filters
                +++ " for value: <class 'filter'>"))
  end.

(** *** Rows, statements and the state a method runs in *)

(** A row of the table behind [self._embedding_store]; [embeddings] is the
    stored vector as the server prints it. *)
Record EmbeddingStore : Type := mk_EmbeddingStore {
  id_ : nat;
  custom_id : option string;
  content_metadata : pyval;
  content : string;
  embeddings : string
}.

(** A row of a search result: [result[0]] (the vector as text, in the
    marginal-relevance query), [result.EmbeddingStore], [result.distance]. *)
Record Row : Type := mk_Row {
  row_first : string;
  row_EmbeddingStore : option EmbeddingStore;
  row_distance : option pyval
}.

(** [select(columns).filter(where).order_by(order).limit(k)] *)
Record Select : Type := mk_Select {
  columns : list sqlexpr;
  whereclause : list sqlexpr;
  order_by : list sqlexpr;
  limit : option Z
}.

(** The dictionary [_insert_embeddings] builds for one text. *)
Record InsertValues : Type := mk_InsertValues {
  values_custom_id : string;
  values_content_metadata : pyval;
  values_content : string;
  values_embeddings : Select
}.

Inductive statement : Type :=
| SelectRows (query : Select)
| InsertRows (documents : list InsertValues)
| DeleteRows (ids : option (list string)).

(** The server behind [self._bind].  What it answers to a [SELECT]
    (distances, JSON paths) and when it refuses a statement are its own
    business: [refuses] gives the exception the driver raises, if any. *)
Record Engine : Type := mk_Engine {
  refuses : statement -> list EmbeddingStore -> option exn;
  fetchall : Select -> list EmbeddingStore -> list (option Row)
}.

Record SQLServer_VectorStore : Type := mk_SQLServer_VectorStore {
  table_name : string;
  _batch_size : Z;
  _embedding_length : Z;
  _distance_strategy : string;
  embedding_function : Embeddings;
  _bind : Engine
}.

(** What a method can change: the rows of the table, the log, the uuids
    drawn, the batches sent to the embedding provider and the statements
    sent to the server (both oldest first). *)
Record World : Type := mk_World {
  table : list EmbeddingStore;
  log : list (string * string);
  uuids_drawn : nat;
  embed_calls : list (list string);
  executed : list statement
}.

Definition M (A : Type) : Type := ST World A.

Definition logging (level message : string) : M unit :=
  fun w =>
    (Ok tt, mk_World (table w) (log w ++ [(level, message)]) (uuids_drawn w)
              (embed_calls w) (executed w)).

(** [uuid.uuid4()] *)
Definition uuid4 : M pyval :=
  fun w =>
    (Ok (PUUID (uuids_drawn w)),
     mk_World (table w) (log w) (S (uuids_drawn w)) (embed_calls w) (executed w)).

Definition set_table (rows : list EmbeddingStore) : M unit :=
  fun w => (Ok tt, mk_World rows (log w) (uuids_drawn w) (embed_calls w) (executed w)).

Definition get_table : M (list EmbeddingStore) := fun w => (Ok (table w), w).

(** A statement reaches the server: it is recorded, then refused or run. *)
Definition send (engine : Engine) (s : statement) : M unit :=
  fun w =>
    let w' := mk_World (table w) (log w) (uuids_drawn w) (embed_calls w)
                (executed w ++ [s]) in
    match refuses engine s (table w) with
    | Some e => (Raise e, w')
    | None => (Ok tt, w')
    end.

(** [isinstance(e, DBAPIError)]; [ProgrammingError] is a subclass. *)
Definition cause_of_DBAPIError (e : exn) : option string :=
  match e with
  | DBAPIError c | ProgrammingError c => Some c
  | _ => None
  end.

Definition cause_of_ProgrammingError (e : exn) : option string :=
  match e with
  | ProgrammingError c => Some c
  | _ => None
  end.

(** *** Search and result mapping *)

(** The [distance_strategy] property: the member's value, or the name given
    as text, lowered and matched. *)
Definition distance_strategy (self : SQLServer_VectorStore) : result string :=
  let distance_strategy_lower := lower (_distance_strategy self) in
  if String.eqb distance_strategy_lower "euclidean" then Ok "euclidean"
  else if String.eqb distance_strategy_lower "cosine" then Ok "cosine"
  else if String.eqb distance_strategy_lower "dot" then Ok "dot"
  else Raise (ValueError (_distance_strategy self +++ " is not supported.")).

(** [_search_store(embedding, k, filter, marginal_relevance)] *)
Definition _search_store (self : SQLServer_VectorStore) (embedding : Vector)
  (k : Z) (filter : pyval) (marginal_relevance : bool) : M (list (option Row)) :=
  try_except
    (filter_clauses <~ lift (_create_filter_clause (table_name self) filter) ;;
     let filter_by :=
       match filter_clauses with
       | Some clause => [clause]
       | None => []
       end in
     strategy <~ lift (distance_strategy self) ;;
     let subquery :=
       Label DISTANCE
         (TextClause VECTOR_DISTANCE_QUERY
            [mk_textbind DISTANCE_STRATEGY (PStr strategy) true;
             mk_textbind EMBEDDING (PStr (json_dumps embedding)) true;
             mk_textbind EMBEDDING_LENGTH (PInt (_embedding_length self)) true]) in
     let query :=
       if marginal_relevance then
         mk_Select
           [TextClause "cast (embeddings as NVARCHAR(MAX))" []; subquery;
            Entity (table_name self)]
           filter_by [Asc (TextClause DISTANCE [])] (Some k)
       else
         mk_Select [Entity (table_name self); subquery]
           filter_by [Asc (TextClause DISTANCE [])] (Some k) in
     _ <~ send (_bind self) (SelectRows query) ;;
     rows <~ get_table ;;
     ret (fetchall (_bind self) query rows))
    (fun e =>
       match cause_of_ProgrammingError e with
       | Some cause =>
           Some (_ <~ logging "error"
                        ("An error has occurred during the search." +++ nl
                         +++ " " +++ cause) ;;
                 throw (Exception_ cause))
       | None => None
       end).

(** [_docs_and_scores_from_result(results)]: the loop, with the list built
    so far. *)
Fixpoint docs_and_scores_loop (results : list (option Row))
  (docs_and_scores : list (Document * pyval)) : M (list (Document * pyval)) :=
  match results with
  | [] => ret docs_and_scores
  | result :: rest =>
      match result with
      | Some (mk_Row _ (Some store) (Some distance)) =>
          docs_and_scores_loop rest
            (docs_and_scores
             ++ [(mk_Document (PStr (content store)) (content_metadata store),
                  distance)])
      | _ =>
          _ <~ logging "error" INVALID_INPUT_ERROR_MESSAGE ;;
          docs_and_scores_loop rest docs_and_scores
      end
  end.

Definition _docs_and_scores_from_result (results : list (option Row))
  : M (list (Document * pyval)) :=
  docs_and_scores_loop results [].

(** [_docs_from_result(results)] *)
Definition _docs_from_result (results : list (Document * pyval)) : list Document :=
  map fst results.

(** [similarity_search_by_vector_with_score(embedding, k, filter)] *)
Definition similarity_search_by_vector_with_score (self : SQLServer_VectorStore)
  (embedding : Vector) (k : Z) (filter : pyval) : M (list (Document * pyval)) :=
  similar_docs <~ _search_store self embedding k filter false ;;
  _docs_and_scores_from_result similar_docs.

(** [[value for idx, value in enumerate(values) if idx in selects]], from
    position [idx] on. *)
Fixpoint enumerate_if_in {A : Type} (idx : nat) (values : list A)
  (selects : list nat) : list A :=
  match values with
  | [] => []
  | value :: rest =>
      if existsb (Nat.eqb idx) selects
      then value :: enumerate_if_in (S idx) rest selects
      else enumerate_if_in (S idx) rest selects
  end.

(** [max_marginal_relevance_search_by_vector(embedding, k, fetch_k,
    lambda_mult, filter)] of the relational store. *)
Definition max_marginal_relevance_search_by_vector (imports : Imports)
  (self : SQLServer_VectorStore) (embedding : Vector) (k fetch_k : Z)
  (lambda_mult : string) (filter : pyval) : M (list Document) :=
  results <~ _search_store self embedding fetch_k filter true ;;
  embedding_list <~
    lift (for_each
            (fun result : option Row =>
               match result with
               | Some row => json_loads imports (row_first row)
               | None => Raise (TypeError "'NoneType' object is not subscriptable")
               end)
            results) ;;
  let mmr_selects :=
    maximal_marginal_relevance imports embedding embedding_list lambda_mult k in
  docs_and_scores <~ _docs_and_scores_from_result results ;;
  let results_as_docs := _docs_from_result docs_and_scores in
  ret (enumerate_if_in 0 results_as_docs mmr_selects).

(** *** Ingest *)

(** [_validate_batch_size(batch_size)] *)
Definition _validate_batch_size (batch_size : Z) : M Z :=
  if (batch_size <=? 0)%Z || (MAX_BATCH_SIZE <? batch_size)%Z then
    _ <~ logging "error" "The request contains an invalid batch_size." ;;
    throw (ValueError
             ("The request contains an invalid batch_size " +++ str_of_Z batch_size
              +++ ". " +++ nl
              +++ "                  The server supports a maximum batch_size of "
              +++ str_of_Z MAX_BATCH_SIZE +++ "." +++ nl
              +++ "                  Please reduce the batch_size and resend the request."))
  else ret batch_size.

(** [metadata.get("id", default)] *)
Definition metadata_get_id (metadata default : pyval) : result pyval :=
  match metadata with
  | PDict kvs =>
      match dict_get "id" kvs with
      | Some v => Ok v
      | None => Ok default
      end
  | _ => Raise (AttributeError ("object has no attribute 'get'"))
  end.

(** [[metadata.get("id", uuid.uuid4()) for metadata in metadatas]]: a uuid
    is drawn for every entry, used or not. *)
Fixpoint ids_from_metadatas (metadatas : list pyval) : M (list pyval) :=
  match metadatas with
  | [] => ret []
  | metadata :: rest =>
      default <~ uuid4 ;;
      id <~ lift (metadata_get_id metadata default) ;;
      ids <~ ids_from_metadatas rest ;;
      ret (id :: ids)
  end.

(** [select(text(JSON_TO_VECTOR_QUERY).bindparams(...))] *)
Definition json_to_vector (embedding : Vector) (embedding_length : Z) : Select :=
  mk_Select
    [TextClause JSON_TO_VECTOR_QUERY
       [mk_textbind EMBEDDING_VALUES (PStr (json_dumps embedding)) true;
        mk_textbind EMBEDDING_LENGTH (PInt embedding_length) true]]
    [] [] None.

(** The loop of [_insert_embeddings] over [enumerate(texts)], from position
    [idx] on; [ids] grows when it is too short. *)
Fixpoint insert_loop (self : SQLServer_VectorStore) (texts : list string)
  (idx : nat) (embeddings : list Vector) (metadatas : list pyval)
  (ids : list pyval) (documents : list InsertValues)
  : M (list pyval * list InsertValues) :=
  match texts with
  | [] => ret (ids, documents)
  | query :: rest =>
      ' (ids, custom_id) <~
        (match nth_error ids idx with
         | Some id => ret (ids, py_str id)
         | None =>
             fresh <~ uuid4 ;;
             ret (ids ++ [PStr (py_str fresh)], py_str fresh)
         end) ;;
      embedding <~
        (match nth_error embeddings idx with
         | Some embedding => ret embedding
         | None => throw (IndexError "list index out of range")
         end) ;;
      let metadata :=
        match nth_error metadatas idx with
        | Some metadata => metadata
        | None => PDict []
        end in
      let sqlquery := json_to_vector embedding (_embedding_length self) in
      let embedding_store := mk_InsertValues custom_id metadata query sqlquery in
      insert_loop self rest (S idx) embeddings metadatas ids
        (documents ++ [embedding_store])
  end.

(** The value bound under [name] in the first column of a query. *)
Definition bound_text (name : string) (query : Select) : string :=
  match columns query with
  | TextClause _ binds :: _ =>
      match find (fun b => String.eqb (tb_name b) name) binds with
      | Some b => py_str (tb_value b)
      | None => ""
      end
  | _ => ""
  end.

(** The rows the server stores for an [INSERT]: each takes a fresh primary
    key ([default=uuid.uuid4]). *)
Fixpoint stored_rows (documents : list InsertValues) (next_id : nat)
  : list EmbeddingStore :=
  match documents with
  | [] => []
  | d :: rest =>
      mk_EmbeddingStore next_id (Some (values_custom_id d))
        (values_content_metadata d) (values_content d)
        (bound_text EMBEDDING_VALUES (values_embeddings d))
      :: stored_rows rest (S next_id)
  end.

(** [session.execute(insert(self._embedding_store).values(documents))] and
    the commit. *)
Definition execute_insert (engine : Engine) (documents : list InsertValues) : M unit :=
  _ <~ send engine (InsertRows documents) ;;
  fun w =>
    (Ok tt,
     mk_World (table w ++ stored_rows documents (uuids_drawn w)) (log w)
       (uuids_drawn w + List.length documents) (embed_calls w) (executed w)).

(** [_insert_embeddings(texts, embeddings, metadatas, ids)] *)
Definition _insert_embeddings (self : SQLServer_VectorStore) (texts : list string)
  (embeddings : list Vector) (metadatas : option (list pyval))
  (ids : option (list pyval)) : M (list pyval) :=
  let metadatas :=
    match metadatas with
    | Some metadatas => metadatas
    | None => map (fun _ => PDict []) texts
    end in
  try_except
    (ids <~ (match ids with
             | Some ids => ret ids
             | None => ids_from_metadatas metadatas
             end) ;;
     ' (ids, documents) <~ insert_loop self texts 0 embeddings metadatas ids [] ;;
     _ <~ execute_insert (_bind self) documents ;;
     ret ids)
    (fun e =>
       match cause_of_DBAPIError e with
       | Some cause =>
           Some (_ <~ logging "error" ("Add text failed:" +++ nl +++ " " +++ cause +++ nl) ;;
                 throw (Exception_ cause))
       | None =>
           match e with
           | AttributeError _ =>
               Some (_ <~ logging "error" "Metadata must be a list of dictionaries." ;;
                     throw e)
           | _ => None
           end
       end).

(** [xs[i : i + n]] *)
Definition slice {A : Type} (xs : list A) (i n : nat) : list A :=
  firstn n (skipn i xs).

(** The call [self.embedding_function.embed_documents(batch)], recorded. *)
Definition call_embed_documents (self : SQLServer_VectorStore) (batch : list string)
  : M (list Vector) :=
  fun w =>
    (embed_documents (embedding_function self) batch,
     mk_World (table w) (log w) (uuids_drawn w) (embed_calls w ++ [batch])
       (executed w)).

(** The loop of [add_texts] over [range(0, len(texts), batch_size)], from
    [i] on; [rounds] bounds the rounds left, [len(texts)] is enough for a
    positive [batch_size]. *)
Fixpoint add_texts_loop (rounds : nat) (self : SQLServer_VectorStore)
  (texts : list string) (metadatas ids : option (list pyval)) (batch_size : nat)
  (i : nat) (embedded_texts : list pyval) : M (list pyval) :=
  match rounds with
  | O => ret embedded_texts
  | S rounds =>
      if (i <? List.length texts)%nat then
        let batch := slice texts i batch_size in
        let batch_ids := option_map (fun ids => slice ids i batch_size) ids in
        let batch_metadatas :=
          option_map (fun metadatas => slice metadatas i batch_size) metadatas in
        batch_result <~ call_embed_documents self batch ;;
        embeddings <~ _insert_embeddings self batch batch_result batch_metadatas batch_ids ;;
        add_texts_loop rounds self texts metadatas ids batch_size (i + batch_size)
          (embedded_texts ++ embeddings)
      else ret embedded_texts
  end.

(** [add_texts(texts, metadatas, ids)] *)
Definition add_texts (self : SQLServer_VectorStore) (texts : option (list string))
  (metadatas ids : option (list pyval)) : M (list pyval) :=
  match texts with
  | None => ret []
  | Some texts =>
      batch_size <~ _validate_batch_size (_batch_size self) ;;
      add_texts_loop (List.length texts) self texts metadatas ids
        (Z.to_nat batch_size) 0 []
  end.

(** *** Delete *)

(** The rows a [DELETE] takes: all of them without ids, else those whose
    [custom_id] is one of the ids ([custom_id.in_(ids)]). *)
Definition selected_by (ids : option (list string)) (row : EmbeddingStore) : bool :=
  match ids with
  | None => true
  | Some ids =>
      match custom_id row with
      | Some c => mem_str c ids
      | None => false
      end
  end.

(** [_delete_texts_by_ids(ids)]: the count of deleted rows.  When the
    driver raises, the handler logs the cause and [return result] meets a
    name that was never bound. *)
Definition _delete_texts_by_ids (self : SQLServer_VectorStore)
  (ids : option (list string)) : M Z :=
  result <~
    try_except
      (_ <~ (match ids with
             | None => logging "info" "Deleting all data in the vectorstore."
             | Some _ => ret tt
             end) ;;
       _ <~ send (_bind self) (DeleteRows ids) ;;
       rows <~ get_table ;;
       _ <~ set_table (filter (fun row => negb (selected_by ids row)) rows) ;;
       ret (Some (Z.of_nat (List.length (filter (selected_by ids) rows)))))
      (fun e =>
         match cause_of_DBAPIError e with
         | Some cause => Some (_ <~ logging "error" cause ;; ret None)
         | None => None
         end) ;;
  match result with
  | Some result => ret result
  | None => throw (UnboundLocalError "result")
  end.

(** [delete(ids)] of the relational store. *)
Definition delete (self : SQLServer_VectorStore) (ids : option (list string))
  : M pyval :=
  match ids with
  | Some [] =>
      _ <~ logging "info" EMPTY_IDS_ERROR_MESSAGE ;;
      ret (PBool false)
  | _ =>
      result <~ _delete_texts_by_ids self ids ;;
      if (result =? 0)%Z then
        _ <~ logging "info" INVALID_IDS_ERROR_MESSAGE ;;
        ret (PBool false)
      else
        _ <~ logging "info" (str_of_Z result +++ " rows affected.") ;;
        ret (PBool true)
  end.

(** *** Lookup by id and the search entry points *)

(** [select(custom_id, content, content_metadata).where(custom_id.in_(ids))] *)
Definition ids_query (self : SQLServer_VectorStore) (ids : list string) : Select :=
  mk_Select
    [Column (table_name self) "custom_id"; Column (table_name self) "content";
     Column (table_name self) "content_metadata"]
    [in_ (Column (table_name self) "custom_id") (map PStr ids)]
    [] None.

(** [_get_documents_by_ids(ids)]: the rows whose [custom_id] is listed, as
    the table holds them; when the driver raises, the cause is logged and
    the empty list the method started with is given back. *)
Definition _get_documents_by_ids (self : SQLServer_VectorStore) (ids : list string)
  : M (list EmbeddingStore) :=
  try_except
    (_ <~ send (_bind self) (SelectRows (ids_query self ids)) ;;
     rows <~ get_table ;;
     ret (filter (selected_by (Some ids)) rows))
    (fun e =>
       match cause_of_DBAPIError e with
       | Some cause => Some (_ <~ logging "error" cause ;; ret [])
       | None => None
       end).

(** [get_by_ids(ids)]: each document with its [id]. *)
Definition get_by_ids (self : SQLServer_VectorStore) (ids : option (list string))
  : M (list (option string * Document)) :=
  match ids with
  | None | Some [] =>
      _ <~ logging "info" EMPTY_IDS_ERROR_MESSAGE ;;
      ret []
  | Some ids =>
      result <~ _get_documents_by_ids self ids ;;
      ret (map (fun item =>
                  (custom_id item,
                   mk_Document (PStr (content item)) (content_metadata item)))
             result)
  end.

(** The call [self.embedding_function.embed_query(query)]. *)
Definition call_embed_query (self : SQLServer_VectorStore) (query : string)
  : M Vector :=
  lift (embed_query (embedding_function self) query).

(** [similarity_search_by_vector(embedding, k, filter)] *)
Definition similarity_search_by_vector (self : SQLServer_VectorStore)
  (embedding : Vector) (k : Z) (filter : pyval) : M (list Document) :=
  similar_docs_with_scores <~
    similarity_search_by_vector_with_score self embedding k filter ;;
  ret (_docs_from_result similar_docs_with_scores).

(** [similarity_search_with_score(query, k, filter)] *)
Definition similarity_search_with_score (self : SQLServer_VectorStore)
  (query : string) (k : Z) (filter : pyval) : M (list (Document * pyval)) :=
  embedded_query <~ call_embed_query self query ;;
  similarity_search_by_vector_with_score self embedded_query k filter.

(** [similarity_search(query, k, filter)] *)
Definition similarity_search (self : SQLServer_VectorStore) (query : string)
  (k : Z) (filter : pyval) : M (list Document) :=
  embedded_query <~ call_embed_query self query ;;
  similarity_search_by_vector self embedded_query k filter.

(** [max_marginal_relevance_search(query, k, fetch_k, lambda_mult, filter)] *)
Definition max_marginal_relevance_search (imports : Imports)
  (self : SQLServer_VectorStore) (query : string) (k fetch_k : Z)
  (lambda_mult : string) (filter : pyval) : M (list Document) :=
  embedded_query <~ call_embed_query self query ;;
  max_marginal_relevance_search_by_vector imports self embedded_query k fetch_k
    lambda_mult filter.

End langchain_sqlserver.

(** ** The document store: [AzureCosmosDBNoSqlVectorSearch] *)

Module langchain_azure_ai.

(** An item of the container, and an entry of [full_text_rank_filter]. *)
Definition Item : Type := list (string * pyval).

Record RankFilter : Type := mk_RankFilter {
  search_field : string;
  search_text : string
}.

(** The calls the store makes on [self._container], and the container as
    the SDK gives it: what a query returns and what is left after a delete,
    given the items held. *)
Inductive container_call : Type :=
| QueryItems (query : string) (parameters : list (string * pyval))
| DeleteItem (document_id : string) (partition_key : pyval).

Record ContainerProxy : Type := mk_ContainerProxy {
  query_items : string -> list (string * pyval) -> list Item -> result (list Item);
  delete_item : string -> pyval -> list Item -> result (list Item)
}.

Record Container : Type := mk_Container {
  items : list Item;
  calls : list container_call
}.

Record AzureCosmosDBNoSqlVectorSearch : Type := mk_AzureCosmosDBNoSqlVectorSearch {
  _table_alias : string;
  _metadata_key : string;
  text_field : string;
  embedding_field : string;
  partition_key : pyval;
  _embedding : Embeddings;
  _container : ContainerProxy
}.

(** A Python truth test on an optional text or mapping. *)
Definition truthy_str (s : option string) : bool :=
  match s with
  | Some (String _ _) => true
  | _ => false
  end.

Definition truthy_list {A : Type} (l : option (list A)) : bool :=
  match l with
  | Some (_ :: _) => true
  | _ => false
  end.

Definition items_of {A : Type} (l : option (list A)) : list A :=
  match l with
  | Some l => l
  | None => []
  end.

(** [f"{embeddings}"] and the value of the [@embeddings] parameter. *)
Definition embeddings_value (embeddings : option Vector) : pyval :=
  match embeddings with
  | Some v => PList (map PFloat v)
  | None => PNone
  end.

Definition is_ranking_or_hybrid (search_type : string) : bool :=
  String.eqb search_type "full_text_ranking" || String.eqb search_type "hybrid".

(** [FullTextScore(table.field, ['term', ...])] for one rank filter. *)
Definition quoted_terms (search_item : RankFilter) : string :=
  join ", " (map (fun term => "'" +++ term +++ "'") (split (search_text search_item))).

Definition rank_component (table : string) (search_item : RankFilter) : string :=
  "FullTextScore(" +++ table +++ "." +++ search_field search_item +++ ", ["
  +++ quoted_terms search_item +++ "])".

(** [_generate_projection_fields] *)
Definition _generate_projection_fields (self : AzureCosmosDBNoSqlVectorSearch)
  (projection_mapping : option (list (string * string))) (search_type : string)
  (embeddings : option Vector) (full_text_rank_filter : option (list RankFilter))
  (with_embedding : bool) : string :=
  let table := _table_alias self in
  if is_ranking_or_hybrid search_type then
    let projection :=
      if truthy_list projection_mapping then
        join ", "
          (map (fun ka => table +++ "." +++ fst ka +++ " as " +++ snd ka)
             (items_of projection_mapping))
      else if truthy_list full_text_rank_filter then
        table +++ ".id, "
        +++ join ", "
              (map (fun search_item =>
                      table +++ "." +++ search_field search_item +++ " "
                      +++ "as " +++ search_field search_item)
                 (items_of full_text_rank_filter))
      else table +++ ".id, " +++ table +++ "." +++ text_field self +++ " " in
    if String.eqb search_type "hybrid" then
      (if with_embedding
       then projection +++ ", " +++ table +++ "." +++ embedding_field self
            +++ " as embedding"
       else projection)
      +++ ", VectorDistance(" +++ table +++ "." +++ embedding_field self +++ ", "
      +++ py_str (embeddings_value embeddings) +++ ") as SimilarityScore"
    else projection
  else
    let projection :=
      if truthy_list projection_mapping then
        join ", "
          (map (fun ka => table +++ "[@" +++ fst ka +++ "] as " +++ snd ka)
             (items_of projection_mapping))
      else if truthy_list full_text_rank_filter then
        table +++ ".id"
        +++ join ", "
              (map (fun search_item =>
                      table +++ "." +++ search_field search_item +++ " as "
                      +++ search_field search_item)
                 (items_of full_text_rank_filter))
      else table +++ ".id, " +++ table +++ "[@textKey] as text, " +++ table
           +++ "[@metadataKey] as metadata" in
    if String.eqb search_type "vector" then
      (if with_embedding
       then projection +++ ", " +++ table +++ "[@embeddingKey] as embedding"
       else projection)
      +++ ", VectorDistance(" +++ table +++ "[@embeddingKey], "
      +++ "@embeddings) as SimilarityScore"
    else projection.

(** [_build_parameters] *)
Definition _build_parameters (self : AzureCosmosDBNoSqlVectorSearch) (k : Z)
  (search_type : string) (embeddings : option Vector)
  (projection_mapping : option (list (string * string)))
  : list (string * pyval) :=
  [("@limit", PInt k)]
  ++ (if truthy_list projection_mapping then
        map (fun ka => ("@" +++ fst ka, PStr (fst ka))) (items_of projection_mapping)
      else [("@textKey", PStr (text_field self));
            ("@metadataKey", PStr (_metadata_key self))])
  ++ (if String.eqb search_type "vector" then
        [("@embeddingKey", PStr (embedding_field self));
         ("@embeddings", embeddings_value embeddings)]
      else []).

(** [_construct_query] *)
Definition _construct_query (self : AzureCosmosDBNoSqlVectorSearch) (k : Z)
  (search_type : string) (embeddings : option Vector)
  (full_text_rank_filter : option (list RankFilter)) (offset_limit : option string)
  (projection_mapping : option (list (string * string))) (with_embedding : bool)
  (where_ : option string) : result (string * list (string * pyval)) :=
  let query :=
    if is_ranking_or_hybrid search_type then
      "SELECT " +++ (if negb (truthy_str offset_limit)
                     then "TOP " +++ str_of_Z k +++ " " else "")
    else
      "SELECT " +++ (if negb (truthy_str offset_limit) then "TOP @limit " else "") in
  let query :=
    query +++ _generate_projection_fields self projection_mapping search_type
                embeddings full_text_rank_filter with_embedding in
  let table := _table_alias self in
  let query := query +++ " FROM " +++ table +++ " " in
  let query :=
    if truthy_str where_ then
      query +++ "WHERE " +++ match where_ with Some w => w | None => "" end
    else query in
  query <-
    (if String.eqb search_type "full_text_ranking" then
       match full_text_rank_filter with
       | None =>
           Raise (ValueError
                    "full_text_rank_filter cannot be None for FULL_TEXT_RANK queries.")
       | Some [search_item] =>
           Ok (query +++ " ORDER BY RANK FullTextScore(" +++ table +++ "."
               +++ search_field search_item +++ ", " +++ nl
               +++ "                [" +++ quoted_terms search_item +++ "])")
       | Some filters =>
           Ok (" ORDER BY RANK RRF("
               +++ join ", " (map (rank_component table) filters) +++ ")")
       end
     else if String.eqb search_type "vector" then
       Ok (query +++ " ORDER BY VectorDistance(c[@embeddingKey], @embeddings)")
     else if String.eqb search_type "hybrid" then
       match full_text_rank_filter with
       | None =>
           Raise (ValueError
                    "full_text_rank_filter cannot be None for HYBRID queries.")
       | Some filters =>
           Ok (query +++ " ORDER BY RANK RRF("
               +++ join ", " (map (rank_component table) filters) +++ ", " +++ nl
               +++ "            VectorDistance(" +++ table +++ "."
               +++ embedding_field self +++ ", "
               +++ py_str (embeddings_value embeddings) +++ "))")
       end
     else Ok query) ;;
  let query :=
    match offset_limit with
    | Some offset_limit => query +++ " " +++ offset_limit
    | None => query
    end in
  let parameters :=
    if String.eqb search_type "full_text_search" || String.eqb search_type "vector"
    then _build_parameters self k search_type embeddings projection_mapping
    else [] in
  Ok (query, parameters).

(** [item[key]] *)
Definition item_get (item : Item) (key : string) : result pyval :=
  match dict_get key item with
  | Some v => Ok v
  | None => Raise (KeyError key)
  end.

(** [metadata[key] = v]: only a dict takes it. *)
Definition setitem (metadata : pyval) (key : string) (v : pyval) : result pyval :=
  match metadata with
  | PDict kvs => Ok (PDict (dict_set key v kvs))
  | _ => Raise (TypeError "object does not support item assignment")
  end.

(** The loop over [projection_mapping.items()] of [_execute_query]. *)
Fixpoint copy_projected (self : AzureCosmosDBNoSqlVectorSearch)
  (mapping : list (string * string)) (item : Item) (metadata : pyval)
  : result pyval :=
  match mapping with
  | [] => Ok metadata
  | (key, alias) :: rest =>
      if String.eqb key (text_field self) then copy_projected self rest item metadata
      else
        v <- item_get item alias ;;
        metadata <- setitem metadata alias v ;;
        copy_projected self rest item metadata
  end.

(** The body of the loop of [_execute_query] for one item. *)
Definition document_of_item (self : AzureCosmosDBNoSqlVectorSearch)
  (search_type : string) (with_embedding : bool)
  (projection_mapping : option (list (string * string))) (item : Item)
  : result (Document * pyval) :=
  text <- item_get item (text_field self) ;;
  let metadata :=
    match dict_get (_metadata_key self) item with
    | Some v => v
    | None => PDict []
    end in
  let item := dict_remove (_metadata_key self) item in
  let score := PFloat "0.0" in
  metadata <-
    (if truthy_list projection_mapping then
       copy_projected self (items_of projection_mapping) item metadata
     else
       v <- item_get item "id" ;;
       setitem metadata "id" v) ;;
  ' (score, metadata) <-
    (if String.eqb search_type "vector" || String.eqb search_type "hybrid" then
       score <- item_get item "SimilarityScore" ;;
       if with_embedding then
         v <- item_get item (embedding_field self) ;;
         metadata <- setitem metadata (embedding_field self) v ;;
         Ok (score, metadata)
       else Ok (score, metadata)
     else Ok (score, metadata)) ;;
  Ok (mk_Document text metadata, score).

(** [self._container.query_items(query, parameters)], recorded. *)
Definition call_query_items (self : AzureCosmosDBNoSqlVectorSearch) (query : string)
  (parameters : list (string * pyval)) : ST Container (list Item) :=
  fun c =>
    (query_items (_container self) query parameters (items c),
     mk_Container (items c) (calls c ++ [QueryItems query parameters])).

(** [_execute_query] *)
Definition _execute_query (self : AzureCosmosDBNoSqlVectorSearch) (query : string)
  (search_type : string) (parameters : list (string * pyval))
  (with_embedding : bool) (projection_mapping : option (list (string * string)))
  : ST Container (list (Document * pyval)) :=
  items <~ call_query_items self query parameters ;;
  lift (for_each
          (document_of_item self search_type with_embedding projection_mapping)
          items).

(** [vector_search_with_score] *)
Definition vector_search_with_score (self : AzureCosmosDBNoSqlVectorSearch)
  (search_type : string) (embeddings : Vector) (k : Z) (with_embedding : bool)
  (offset_limit : option string)
  (projection_mapping : option (list (string * string))) (where_ : option string)
  : ST Container (list (Document * pyval)) :=
  ' (query, parameters) <~
    lift (_construct_query self k search_type (Some embeddings) None offset_limit
            projection_mapping with_embedding where_) ;;
  _execute_query self query search_type parameters with_embedding projection_mapping.

(** The vector held by a value: the floats of a list. *)
Definition vector_of (v : pyval) : Vector :=
  match v with
  | PList xs | PTuple xs => map py_str xs
  | _ => []
  end.

(** [doc.metadata[key]] *)
Definition metadata_get (doc : Document) (key : string) : result pyval :=
  match metadata doc with
  | PDict kvs => item_get kvs key
  | _ => Raise (TypeError "object is not subscriptable")
  end.

(** [max_marginal_relevance_search_by_vector] of the document store. *)
Definition max_marginal_relevance_search_by_vector (imports : Imports)
  (self : AzureCosmosDBNoSqlVectorSearch) (embedding : Vector) (k fetch_k : Z)
  (lambda_mult : string) (search_type : string) (with_embedding : bool)
  (where_ : option string) : ST Container (list Document) :=
  docs <~ vector_search_with_score self search_type embedding fetch_k with_embedding
            None None where_ ;;
  embedding_list <~
    lift (for_each
            (fun ds : Document * pyval =>
               v <- metadata_get (fst ds) (embedding_field self) ;;
               Ok (vector_of v))
            docs) ;;
  let mmr_doc_indexes :=
    maximal_marginal_relevance imports embedding embedding_list lambda_mult k in
  lift (for_each
          (fun i =>
             match nth_error docs i with
             | Some ds => Ok (fst ds)
             | None => Raise (IndexError "list index out of range")
             end)
          mmr_doc_indexes).

(** The loop of [delete] over the ids. *)
Fixpoint delete_each (self : AzureCosmosDBNoSqlVectorSearch) (ids : list string)
  : ST Container unit :=
  match ids with
  | [] => ret tt
  | document_id :: rest =>
      _ <~ (fun c =>
              let c' := mk_Container (items c)
                          (calls c ++ [DeleteItem document_id (partition_key self)]) in
              match delete_item (_container self) document_id (partition_key self)
                      (items c) with
              | Ok remaining => (Ok tt, mk_Container remaining (calls c'))
              | Raise e => (Raise e, c')
              end) ;;
      delete_each self rest
  end.

(** [delete(ids)] of the document store. *)
Definition delete (self : AzureCosmosDBNoSqlVectorSearch)
  (ids : option (list string)) : ST Container pyval :=
  match ids with
  | None => throw (ValueError "No document ids provided to delete.")
  | Some ids =>
      _ <~ delete_each self ids ;;
      ret (PBool true)
  end.

(** *** The search entry points and ingest *)

(** [full_text_search] *)
Definition full_text_search (self : AzureCosmosDBNoSqlVectorSearch)
  (search_type : string) (k : Z) (offset_limit : option string)
  (projection_mapping : option (list (string * string))) (where_ : option string)
  : ST Container (list (Document * pyval)) :=
  ' (query, parameters) <~
    lift (_construct_query self k search_type None None offset_limit
            projection_mapping false where_) ;;
  _execute_query self query search_type parameters false projection_mapping.

(** [full_text_ranking] *)
Definition full_text_ranking (self : AzureCosmosDBNoSqlVectorSearch)
  (search_type : string) (k : Z) (offset_limit : option string)
  (projection_mapping : option (list (string * string)))
  (full_text_rank_filter : option (list RankFilter)) (where_ : option string)
  : ST Container (list (Document * pyval)) :=
  ' (query, parameters) <~
    lift (_construct_query self k search_type None full_text_rank_filter offset_limit
            projection_mapping false where_) ;;
  _execute_query self query search_type parameters false projection_mapping.

(** [hybrid_search_with_score]: [with_embedding] reaches the mapping, not
    the query. *)
Definition hybrid_search_with_score (self : AzureCosmosDBNoSqlVectorSearch)
  (search_type : string) (embeddings : Vector) (k : Z) (with_embedding : bool)
  (offset_limit : option string)
  (projection_mapping : option (list (string * string)))
  (full_text_rank_filter : option (list RankFilter)) (where_ : option string)
  : ST Container (list (Document * pyval)) :=
  ' (query, parameters) <~
    lift (_construct_query self k search_type (Some embeddings) full_text_rank_filter
            offset_limit projection_mapping false where_) ;;
  _execute_query self query search_type parameters with_embedding projection_mapping.

(** [search_type or self._search_type]; the store's own [_search_type] is
    an argument here. *)
Definition search_type_or (search_type : option string) (_search_type : string)
  : string :=
  if truthy_str search_type
  then match search_type with Some s => s | None => _search_type end
  else _search_type.

(** [similarity_search_with_score] *)
Definition similarity_search_with_score (self : AzureCosmosDBNoSqlVectorSearch)
  (_search_type : string) (query : string) (k : Z) (with_embedding : bool)
  (search_type : option string) (offset_limit : option string)
  (full_text_rank_filter : option (list RankFilter))
  (projection_mapping : option (list (string * string))) (where_ : option string)
  : ST Container (list (Document * pyval)) :=
  let search_type := search_type_or search_type _search_type in
  if String.eqb search_type "vector" then
    embeddings <~ lift (embed_query (_embedding self) query) ;;
    vector_search_with_score self search_type embeddings k with_embedding
      offset_limit projection_mapping where_
  else if String.eqb search_type "full_text_search" then
    full_text_search self search_type k offset_limit projection_mapping where_
  else if String.eqb search_type "full_text_ranking" then
    full_text_ranking self search_type k offset_limit projection_mapping
      full_text_rank_filter where_
  else if String.eqb search_type "hybrid" then
    embeddings <~ lift (embed_query (_embedding self) query) ;;
    hybrid_search_with_score self search_type embeddings k with_embedding
      offset_limit projection_mapping full_text_rank_filter where_
  else ret [].

(** [similarity_search] *)
Definition similarity_search (self : AzureCosmosDBNoSqlVectorSearch)
  (_search_type : string) (query : string) (k : Z) (with_embedding : bool)
  (search_type : option string) (offset_limit : option string)
  (projection_mapping : option (list (string * string)))
  (full_text_rank_filter : option (list RankFilter)) (where_ : option string)
  : ST Container (list Document) :=
  let search_type := search_type_or search_type _search_type in
  docs_and_scores <~
    similarity_search_with_score self _search_type query k with_embedding
      (Some search_type) offset_limit full_text_rank_filter projection_mapping
      where_ ;;
  ret (map fst docs_and_scores).

(** [max_marginal_relevance_search] *)
Definition max_marginal_relevance_search (imports : Imports)
  (self : AzureCosmosDBNoSqlVectorSearch) (query : string) (k fetch_k : Z)
  (lambda_mult : string) (search_type : string) (with_embedding : bool)
  (where_ : option string) : ST Container (list Document) :=
  embeddings <~ lift (embed_query (_embedding self) query) ;;
  max_marginal_relevance_search_by_vector imports self embeddings k fetch_k
    lambda_mult search_type with_embedding where_.

(** [delete_document_by_id(document_id)]: the id is its own partition key. *)
Definition delete_document_by_id (self : AzureCosmosDBNoSqlVectorSearch)
  (document_id : option string) : ST Container unit :=
  match document_id with
  | None => throw (ValueError "No document ids provided to delete.")
  | Some document_id =>
      fun c =>
        let c' := mk_Container (items c)
                    (calls c ++ [DeleteItem document_id (PStr document_id)]) in
        match delete_item (_container self) document_id (PStr document_id) (items c) with
        | Ok remaining => (Ok tt, mk_Container remaining (calls c'))
        | Raise e => (Raise e, c')
        end
  end.

(** What ingest changes: the items of the container and the uuids drawn. *)
Record Ingest : Type := mk_Ingest {
  held : list Item;
  drawn : nat
}.

(** [zip(texts, metadatas, embeddings)] *)
Fixpoint zip3 {A B C : Type} (xs : list A) (ys : list B) (zs : list C)
  : list (A * B * C) :=
  match xs, ys, zs with
  | x :: xs, y :: ys, z :: zs => (x, y, z) :: zip3 xs ys zs
  | _, _, _ => []
  end.

(** The dictionary built for one text; a key written twice keeps its first
    place and its last value. *)
Definition item_to_insert (self : AzureCosmosDBNoSqlVectorSearch) (id : string)
  (t : string) (m : pyval) (embedding : Vector) : Item :=
  dict_set "metadata" m
    (dict_set (embedding_field self) (PList (map PFloat embedding))
       (dict_set (text_field self) (PStr t) [("id", PStr id)])).

(** The comprehension that builds [to_insert]: one uuid per triple. *)
Fixpoint to_insert (self : AzureCosmosDBNoSqlVectorSearch)
  (triples : list (string * pyval * Vector)) (next : nat) : list Item :=
  match triples with
  | [] => []
  | (t, m, embedding) :: rest =>
      item_to_insert self (uuid_text next) t m embedding :: to_insert self rest (S next)
  end.

(** The loop over [to_insert]: [create_item] is the container's, it gives
    the created document and the items then held. *)
Fixpoint create_each (create_item : Item -> list Item -> result (Item * list Item))
  (to_insert : list Item) (doc_ids : list pyval) : ST Ingest (list pyval) :=
  match to_insert with
  | [] => ret doc_ids
  | item :: rest =>
      id <~ (fun s =>
               match create_item item (held s) with
               | Ok (created_doc, held') =>
                   (item_get created_doc "id", mk_Ingest held' (drawn s))
               | Raise e => (Raise e, s)
               end) ;;
      create_each create_item rest (doc_ids ++ [id])
  end.

(** [_insert_texts(texts, metadatas)] *)
Definition _insert_texts (self : AzureCosmosDBNoSqlVectorSearch)
  (create_item : Item -> list Item -> result (Item * list Item))
  (texts : list string) (metadatas : list pyval) : ST Ingest (list pyval) :=
  match texts with
  | [] => throw (Exception_ "Texts can not be null or empty")
  | _ =>
      embeddings <~ lift (embed_documents (_embedding self) texts) ;;
      triples <~ (fun s =>
                    let triples := zip3 texts metadatas embeddings in
                    (Ok (to_insert self triples (drawn s)),
                     mk_Ingest (held s) (drawn s + List.length triples))) ;;
      create_each create_item triples []
  end.

(** [add_texts(texts, metadatas)] *)
Definition add_texts (self : AzureCosmosDBNoSqlVectorSearch)
  (create_item : Item -> list Item -> result (Item * list Item))
  (texts : list string) (metadatas : option (list pyval)) : ST Ingest (list pyval) :=
  let _metadatas :=
    match metadatas with
    | Some metadatas => metadatas
    | None => map (fun _ => PDict []) texts
    end in
  _insert_texts self create_item texts _metadatas.

End langchain_azure_ai.

Import langchain_azure_ai.
Import langchain_sqlserver.

(** ** The filter tree of the specification

    The specification's [FilterNode], and the nested mapping a caller writes
    for it; [_create_filter_clause] is the compiler of such mappings. *)



























(** ** Stores used in examples *)

(** A server that runs every statement and answers a [SELECT] with the rows
    it holds, in their order, at distance [0.0]. *)
Definition example_engine : Engine :=
  mk_Engine (fun _ _ => None)
    (fun _ rows =>
       map (fun row => Some (mk_Row (embeddings row) (Some row) (Some (PFloat "0.0"))))
         rows).

(** An embedding provider that gives every text the same unit vector. *)
Definition example_embeddings : Embeddings :=
  mk_Embeddings (fun texts => Ok (map (fun _ => ["1.0"; "0.0"]) texts))
    (fun _ => Ok ["1.0"; "0.0"]).

Definition example_store : SQLServer_VectorStore :=
  mk_SQLServer_VectorStore "sqlserver_vectorstore" 2 2 "cosine"
    example_embeddings example_engine.

Definition empty_world : World := mk_World [] [] 0 [] [].

(** A table of two rows, with the custom ids [a] and [b]. *)
Definition two_rows_world : World :=
  mk_World
    [mk_EmbeddingStore 0 (Some "a") (PDict []) "first" "[1.0, 0.0]";
     mk_EmbeddingStore 1 (Some "b") (PDict []) "second" "[0.0, 1.0]"]
    [] 2 [] [].

(** A container that answers every query with the items it holds and
    deletes the items with the given id. *)
Definition example_container : ContainerProxy :=
  mk_ContainerProxy (fun _ _ held => Ok held)
    (fun document_id _ held =>
       Ok (filter (fun item =>
                     match dict_get "id" item with
                     | Some (PStr i) => negb (String.eqb i document_id)
                     | _ => true
                     end) held)).

Definition example_cosmos : AzureCosmosDBNoSqlVectorSearch :=
  mk_AzureCosmosDBNoSqlVectorSearch "c" "metadata" "text" "embedding" (PStr "/id")
    example_embeddings example_container.

(** The score the document store gives a mapped row: the row's
    [SimilarityScore] in the vector and hybrid modes, [0.0] otherwise. *)
Definition score_rule (search_type : string) (item : Item) (score : pyval) : Prop :=
  if String.eqb search_type "vector" || String.eqb search_type "hybrid"
  then dict_get "SimilarityScore" item = Some score
  else score = PFloat "0.0".

(** Two items the example container holds. *)
Definition example_items : list Item :=
  [[("id", PStr "1"); ("text", PStr "hello"); ("metadata", PDict [("page", PInt 3)]);
    ("SimilarityScore", PFloat "0.9")];
   [("id", PStr "2"); ("text", PStr "world"); ("metadata", PDict []);
    ("SimilarityScore", PFloat "0.25")]].


(** ** Batches *)

(** The consecutive batches of at most [n] texts, in at most [rounds]
    rounds. *)
Fixpoint batches_from (rounds n : nat) (texts : list string) : list (list string) :=
  match rounds, texts with
  | S rounds, _ :: _ => firstn n texts :: batches_from rounds n (skipn n texts)
  | _, _ => []
  end.

Definition batches (n : nat) (texts : list string) : list (list string) :=
  batches_from (List.length texts) n texts.

(** [isinstance(v, dict)] *)
Definition is_dict (v : pyval) : bool :=
  match v with PDict _ => true | _ => false end.

(** The caller's lists fit the texts: ids, when given, are not more than
    the texts; without ids, the metadatas, when given, are dicts and not
    more than the texts. *)
Definition lists_fit (texts : list string) (metadatas ids : option (list pyval)) : Prop :=
  match ids, metadatas with
  | Some ids, _ => (List.length ids <= List.length texts)%nat
  | None, Some metadatas =>
      (List.length metadatas <= List.length texts)%nat
      /\ forallb is_dict metadatas = true
  | None, None => True
  end.

(** ** Maximal marginal relevance *)

(** Modelled from the spec: [maximal_marginal_relevance], which both stores
    import (from [langchain_core.vectorstores.utils] and from
    [langchain_azure_ai.vectorstores.utils]), is not among the sources.
    Section 4.4 of the specification: keep [selected], empty at first, and
    [remaining], all candidate indices; until [selected] holds [k] indices
    or [remaining] is empty, move the index of greatest
    [lambda * relevance - (1 - lambda) * penalty] from [remaining] to the
    end of [selected], the lowest index winning a tie.  Scores are exact
    rationals and the cosine similarity is a parameter. *)
Section greedy_selection.
Variable cosineSimilarity : Vector -> Vector -> Q.
Variable queryVector : Vector.
Variable candidates : list Vector.
Variable lambda : Q.

Definition embedding_of (i : nat) : Vector := nth i candidates [].

Definition relevance (i : nat) : Q := cosineSimilarity queryVector (embedding_of i).

Definition greater (a b : Q) : Q := if Qle_bool a b then b else a.

Definition penalty (selected : list nat) (i : nat) : Q :=
  match selected with
  | [] => 0
  | j :: others =>
      fold_left
        (fun m j' => greater m (cosineSimilarity (embedding_of i) (embedding_of j')))
        others (cosineSimilarity (embedding_of i) (embedding_of j))
  end.

Definition mmrScore (selected : list nat) (i : nat) : Q :=
  lambda * relevance i - (1 - lambda) * penalty selected i.

(** [remaining] is in increasing order: a later index takes the place of
    the best so far only with a strictly greater score. *)
Definition argmax (selected : list nat) (first : nat) (others : list nat) : nat :=
  fold_left
    (fun best i =>
       if Qle_bool (mmrScore selected i) (mmrScore selected best) then best else i)
    others first.

Fixpoint select_from (k : nat) (selected remaining : list nat) : list nat :=
  match k, remaining with
  | S k, first :: others =>
      let best := argmax selected first others in
      select_from k (selected ++ [best]) (remove Nat.eq_dec best remaining)
  | _, _ => selected
  end.

Definition select (k : nat) : list nat :=
  select_from k [] (seq 0 (List.length candidates)).
End greedy_selection.

(** The number a float's [repr] stands for, when the [repr] is a sign,
    digits and a point. *)
Fixpoint read_decimal (s : string) (mantissa : Z) (scale : positive)
  (after_point : bool) : Q :=
  match s with
  | EmptyString => Qmake mantissa scale
  | String c rest =>
      if is_digit c then
        read_decimal rest (10 * mantissa + Z.of_nat (code c - 48))
          (if after_point then 10 * scale else scale)%positive after_point
      else read_decimal rest mantissa scale true
  end.

Definition float_value (r : string) : Q :=
  match r with
  | String "-" rest => Qopp (read_decimal rest 0 1 false)
  | _ => read_decimal r 0 1 false
  end.

Fixpoint dot (a b : Vector) : Q :=
  match a, b with
  | x :: a, y :: b => float_value x * float_value y + dot a b
  | _, _ => 0
  end.

(** The text of a vector read back: its numbers, between brackets and
    commas. *)
Fixpoint blank_punctuation (s : string) : string :=
  match s with
  | EmptyString => EmptyString
  | String c rest =>
      String (if (code c =? 91)%nat || (code c =? 93)%nat || (code c =? 44)%nat
              then " "%char else c)
        (blank_punctuation rest)
  end.

(** Imports for examples with vectors of norm one, where the cosine
    similarity is the dot product. *)
Definition example_imports : Imports :=
  mk_Imports (fun s => Ok (split (blank_punctuation s)))
    (fun query embedding_list lambda_mult k =>
       select dot query embedding_list (float_value lambda_mult) (Z.to_nat k)).

(** Three rows in the order of their cosine distance to [(1, 0)]: the
    second is close to the first, the third is apart from both. *)
Definition three_rows_world : World :=
  mk_World
    [mk_EmbeddingStore 0 (Some "a") (PDict []) "first" "[1.0, 0.0]";
     mk_EmbeddingStore 1 (Some "b") (PDict []) "second" "[0.8, 0.6]";
     mk_EmbeddingStore 2 (Some "c") (PDict []) "third" "[0.6, -0.8]"]
    [] 3 [] [].

Definition three_items : list Item :=
  [[("id", PStr "a"); ("text", PStr "first"); ("metadata", PDict []);
    ("embedding", PList [PFloat "1.0"; PFloat "0.0"]);
    ("SimilarityScore", PFloat "1.0")];
   [("id", PStr "b"); ("text", PStr "second"); ("metadata", PDict []);
    ("embedding", PList [PFloat "0.8"; PFloat "0.6"]);
    ("SimilarityScore", PFloat "0.8")];
   [("id", PStr "c"); ("text", PStr "third"); ("metadata", PDict []);
    ("embedding", PList [PFloat "0.6"; PFloat "-0.8"]);
    ("SimilarityScore", PFloat "0.6")]].

(** ** The embedding model: [AzureAIEmbeddingsModel]

    [libs/azure-ai/langchain_azure_ai/embeddings/inference.py]: the
    provider behind [embed_documents] and [embed_query].  The client of the
    inference service is a field: what it answers to a batch of texts. *)

Module langchain_azure_ai_embeddings.

Inductive EmbeddingInputType : Type := DOCUMENT | QUERY | TEXT.

Record AzureAIEmbeddingsModel : Type := mk_AzureAIEmbeddingsModel {
  embed_batch_size : Z;
  _embed_input_type : option EmbeddingInputType;
  dimensions : option Z;
  model_kwargs : list (string * pyval);
  _client_embed :
    list string -> EmbeddingInputType -> list (string * pyval) -> result (list Vector)
}.

(** A call [self._client.embed] with its [input], [input_type] and the
    model parameters. *)
Record embed_call : Type := mk_embed_call {
  call_input : list string;
  call_input_type : EmbeddingInputType;
  call_params : list (string * pyval)
}.

(** [params.update(kwargs)] *)
Definition dict_update (params kwargs : list (string * pyval))
  : list (string * pyval) :=
  fold_left (fun d kv => dict_set (fst kv) (snd kv) d) kwargs params.

(** [_get_model_params], with its keyword arguments as a dict. *)
Definition _get_model_params (self : AzureAIEmbeddingsModel)
  (kwargs : list (string * pyval)) : list (string * pyval) :=
  let params := [] in
  let params :=
    match dimensions self with
    | Some d => if (d =? 0)%Z then params else dict_set "dimensions" (PInt d) params
    | None => params
    end in
  let params :=
    match model_kwargs self with
    | [] => params
    | extras => dict_set "model_extras" (PDict extras) params
    end in
  dict_update params kwargs.

(** [self._embed_input_type or input_type] *)
Definition input_type_or (self : AzureAIEmbeddingsModel)
  (input_type : EmbeddingInputType) : EmbeddingInputType :=
  match _embed_input_type self with
  | Some t => t
  | None => input_type
  end.

(** The loop of [_embed] over [range(0, len(texts), batch_size)], from
    [text_batch] on, with what was yielded so far. *)
Fixpoint embed_loop (rounds : nat) (self : AzureAIEmbeddingsModel)
  (texts : list string) (input_type : EmbeddingInputType) (batch_size : nat)
  (text_batch : nat) (yielded : list Vector) : ST (list embed_call) (list Vector) :=
  match rounds with
  | O => ret yielded
  | S rounds =>
      if (text_batch <? List.length texts)%nat then
        let input := slice texts text_batch batch_size in
        data <~ (fun calls =>
                   (_client_embed self input (input_type_or self input_type)
                      (_get_model_params self []),
                    calls ++ [mk_embed_call input (input_type_or self input_type)
                                (_get_model_params self [])])) ;;
        embed_loop rounds self texts input_type batch_size
          (text_batch + batch_size) (yielded ++ data)
      else ret yielded
  end.

(** [list(self._embed(texts, input_type))]: a zero step is refused by
    [range], a negative step gives no round. *)
Definition _embed (self : AzureAIEmbeddingsModel) (texts : list string)
  (input_type : EmbeddingInputType) : ST (list embed_call) (list Vector) :=
  if (embed_batch_size self =? 0)%Z then
    throw (ValueError "range() arg 3 must not be zero")
  else if (embed_batch_size self <? 0)%Z then ret []
  else
    embed_loop (List.length texts) self texts input_type
      (Z.to_nat (embed_batch_size self)) 0 [].

(** [embed_documents(texts)] *)
Definition embed_documents (self : AzureAIEmbeddingsModel) (texts : list string)
  : ST (list embed_call) (list Vector) :=
  _embed self texts DOCUMENT.

(** [embed_query(text)] *)
Definition embed_query (self : AzureAIEmbeddingsModel) (t : string)
  : ST (list embed_call) Vector :=
  embeddings <~ _embed self [t] QUERY ;;
  match embeddings with
  | embedding :: _ => ret embedding
  | [] => throw (IndexError "list index out of range")
  end.

End langchain_azure_ai_embeddings.

(** ** Well-formed paths *)



(** ** A server that refuses *)

(** A server that refuses every statement with the given exception, and a
    store opened on it. *)
Definition refusing_engine (e : exn) : Engine :=
  mk_Engine (fun _ _ => Some e) (fun _ _ => []).

Definition refusing_store (e : exn) : SQLServer_VectorStore :=
  mk_SQLServer_VectorStore "sqlserver_vectorstore" 2 2 "cosine"
    example_embeddings (refusing_engine e).

(** Two states that differ at most in the uuids drawn. *)
Definition same_but_uuids (w w' : World) : Prop :=
  table w' = table w /\ log w' = log w
  /\ embed_calls w' = embed_calls w /\ executed w' = executed w.

(** An embedding provider that fails on every batch holding [bad], and a
    store that embeds with it. *)
Definition failing_embeddings (bad : string) : Embeddings :=
  mk_Embeddings
    (fun texts =>
       if mem_str bad texts then Raise (Exception_ "429")
       else Ok (map (fun _ => ["1.0"; "0.0"]) texts))
    (fun _ => Ok ["1.0"; "0.0"]).

Definition failing_store (bad : string) : SQLServer_VectorStore :=
  mk_SQLServer_VectorStore "sqlserver_vectorstore" 2 2 "cosine"
    (failing_embeddings bad) example_engine.

(** ** A client for the embeddings model *)

(** A model over a client that embeds every text by its length, in
    batches of [batch_size]. *)
Definition example_model (batch_size : Z)
  : langchain_azure_ai_embeddings.AzureAIEmbeddingsModel :=
  langchain_azure_ai_embeddings.mk_AzureAIEmbeddingsModel batch_size
    (Some langchain_azure_ai_embeddings.TEXT) None []
    (fun input _ _ => Ok (map (fun t => [str_of_nat (String.length t)]) input)).

(** * Properties *)

(** ** The filter compiler *)

(** The docstring example of [_create_filter_clause]. *)
Example create_filter_clause_docstring :
  match _create_filter_clause "langchain_vector_store_tests"
          (PDict [("$or", PList [PDict [("id", PInt 1)];
                                 PDict [("name", PStr "bob")]])]) with
  | Ok (Some e) => statement_text e
  | _ => ""
  end
  = "JSON_VALUE(langchain_vector_store_tests.content_metadata, :JSON_VALUE_1) = :JSON_VALUE_2 OR JSON_VALUE(langchain_vector_store_tests.content_metadata, :JSON_VALUE_3) = :JSON_VALUE_4".
Proof. reflexivity. Qed.


(** C2, on the code.  A [$between] whose pair holds two texts is compiled
    with the numeric cast on both bounds: the test in the source is
    [isinstance(filter_value, str)], and [filter_value] is the pair. *)
Theorem between_text_pair_is_cast (table_name : string) :
  _handle_field_filter table_name "price"
    (PDict [("$between", PTuple [PStr "5"; PStr "10"])])
  = Ok (BooleanClauseList op_and
          [BinaryExpression op_ge
             (Cast (func_JSON_VALUE (content_metadata_column table_name) "$.price")
                Numeric_10_2)
             (BindParam "param" (PStr "5"));
           BinaryExpression op_le
             (Cast (func_JSON_VALUE (content_metadata_column table_name) "$.price")
                Numeric_10_2)
             (BindParam "param" (PStr "10"))]).
Proof. reflexivity. Qed.

(** The same holds of every field and every pair of texts, written as a
    tuple or as a list; and a pair of numbers is cast, as the second half of
    C2 says. *)
Lemma between_pair_is_always_cast (table_name field : string) (low high : pyval)
  (as_tuple : bool) :
  startswith field "$" = false ->
  isidentifier field = true ->
  (is_str low = true /\ is_str high = true)
  \/ (exists a b, low = PInt a /\ high = PInt b) ->
  _handle_field_filter table_name field
    (PDict [("$between", (if as_tuple then PTuple else PList) [low; high])])
  = Ok (BooleanClauseList op_and
          [BinaryExpression op_ge
             (Cast (func_JSON_VALUE (content_metadata_column table_name) ("$." +++ field))
                Numeric_10_2)
             (BindParam "param" low);
           BinaryExpression op_le
             (Cast (func_JSON_VALUE (content_metadata_column table_name) ("$." +++ field))
                Numeric_10_2)
             (BindParam "param" high)]).
Proof.
  intros Hsigil Hid Hpair. unfold _handle_field_filter. rewrite Hsigil, Hid.
  destruct Hpair as [[Hlow Hhigh] | (a & b & -> & ->)].
  - destruct low; try discriminate Hlow. destruct high; try discriminate Hhigh.
    destruct as_tuple; reflexivity.
  - destruct as_tuple; reflexivity.
Qed.

(** *** Induction over nested expressions and trees *)



(** *** The statement text does not read bound values *)






Ltac ok_steps H :=
  repeat match type of H with
         | bind ?r _ = Ok _ =>
             destruct r eqn:?; cbn [bind] in H; [| discriminate H]
         end.


Lemma create_filter_clause_and (table_name : string) (els : list pyval) :
  _create_filter_clause table_name (PDict [("$and", PList els)])
  = (and_ <- for_each (_create_filter_clause table_name) els ;;
     join_clauses sqlalchemy_and_ and_).
Proof.
  simpl. f_equal. induction els as [| el rest IH]; [reflexivity |].
  simpl. rewrite IH. reflexivity.
Qed.








(** *** Every compared scalar is bound *)








Lemma for_each_Forall2 {A B : Type} (f : A -> result B) (xs : list A) :
  forall l, for_each f xs = Ok l -> Forall2 (fun x y => f x = Ok y) xs l.
Proof.
  induction xs as [| x rest IH]; simpl; intros l H.
  - injection H as <-. constructor.
  - ok_steps H. injection H as <-. constructor; auto.
Qed.








(** ** Delete *)

Lemma delete_texts_by_ids_runs (self : SQLServer_VectorStore)
  (ids : option (list string)) (w : World) :
  refuses (_bind self) (DeleteRows ids) (table w) = None ->
  exists w',
    _delete_texts_by_ids self ids w
    = (Ok (Z.of_nat (List.length (filter (selected_by ids) (table w)))), w')
    /\ table w' = filter (fun row => negb (selected_by ids row)) (table w)
    /\ executed w' = executed w ++ [DeleteRows ids].
Proof.
  intros Hruns. unfold _delete_texts_by_ids, try_except, mbind, send.
  destruct ids as [ids |]; cbn; rewrite Hruns; cbn;
    eexists; (split; [reflexivity | split; reflexivity]).
Qed.

(** C10. In the relational store, [delete(None)], when the server runs the
    statement, leaves no row in the table; [delete([])] answers [False],
    sends no statement and leaves the table as it was. *)
Theorem delete_everything_or_nothing (self : SQLServer_VectorStore) (w : World) :
  refuses (_bind self) (DeleteRows None) (table w) = None ->
  table (snd (langchain_sqlserver.delete self None w)) = []
  /\ executed (snd (langchain_sqlserver.delete self None w))
     = executed w ++ [DeleteRows None]
  /\ fst (langchain_sqlserver.delete self (Some []) w) = Ok (PBool false)
  /\ table (snd (langchain_sqlserver.delete self (Some []) w)) = table w
  /\ executed (snd (langchain_sqlserver.delete self (Some []) w)) = executed w.
Proof.
  intros Hruns.
  destruct (delete_texts_by_ids_runs self None w Hruns) as (w' & Hrun & Htable & Hsent).
  assert (Hnone : table w' = []).
  { rewrite Htable. clear. generalize (table w) as rows.
    induction rows as [| row rows IH]; [reflexivity | exact IH]. }
  unfold langchain_sqlserver.delete, mbind. rewrite Hrun.
  split; [| split; [| repeat split]].
  - destruct (Z.of_nat _ =? 0)%Z; cbn; exact Hnone.
  - destruct (Z.of_nat _ =? 0)%Z; cbn; exact Hsent.
Qed.

Lemma delete_everything_or_nothing_witness :
  table (snd (langchain_sqlserver.delete example_store None two_rows_world)) = []
  /\ executed (snd (langchain_sqlserver.delete example_store None two_rows_world))
     = executed two_rows_world ++ [DeleteRows None]
  /\ fst (langchain_sqlserver.delete example_store (Some []) two_rows_world)
     = Ok (PBool false)
  /\ table (snd (langchain_sqlserver.delete example_store (Some []) two_rows_world))
     = table two_rows_world
  /\ executed (snd (langchain_sqlserver.delete example_store (Some []) two_rows_world))
     = executed two_rows_world.
Proof.
  apply (delete_everything_or_nothing example_store two_rows_world). reflexivity.
Defined.





(** ** Result mapping *)




Lemma dict_get_remove (key removed : string) (d : Item) (v : pyval) :
  dict_get key (dict_remove removed d) = Some v -> dict_get key d = Some v.
Proof.
  induction d as [| [k x] rest IH]; simpl; [discriminate |].
  destruct (String.eqb k removed) eqn:Hk; simpl.
  - apply String.eqb_eq in Hk. subst k.
    destruct (String.eqb removed key) eqn:Hr.
    + apply String.eqb_eq in Hr. subst key. intros H. exfalso.
      clear IH. induction rest as [| [k' x'] rest IH]; simpl in H; [discriminate |].
      destruct (String.eqb k' removed) eqn:Hk'; simpl in H; [auto |].
      rewrite Hk' in H. auto.
    + exact IH.
  - destruct (String.eqb k key); [auto | exact IH].
Qed.

Lemma document_of_item_score (self : AzureCosmosDBNoSqlVectorSearch)
  (search_type : string) (with_embedding : bool)
  (projection_mapping : option (list (string * string))) (item : Item)
  (doc : Document) (score : pyval) :
  document_of_item self search_type with_embedding projection_mapping item
  = Ok (doc, score) ->
  score_rule search_type item score.
Proof.
  unfold document_of_item, score_rule. intros H.
  ok_steps H.
  match goal with
  | H1 : (if ?b then _ else _) = Ok ?p |- (if ?b then _ else _) =>
      destruct p as [s m]; cbn in H; injection H as _ <-;
      destruct b; [| injection H1 as <- _; reflexivity];
      rename H1 into Hs
  end.
  ok_steps Hs.
  match goal with
  | Hg : item_get _ "SimilarityScore" = Ok ?x |- _ =>
      unfold item_get in Hg;
      destruct (dict_get "SimilarityScore" (dict_remove (_metadata_key self) item))
        as [v |] eqn:Hget;
      [injection Hg as -> | discriminate Hg]
  end.
  apply dict_get_remove in Hget.
  destruct with_embedding.
  - ok_steps Hs. injection Hs as <- _. exact Hget.
  - injection Hs as <- _. exact Hget.
Qed.

(** C8. Every row the document store maps takes as score the row's
    [SimilarityScore] value itself in the vector and hybrid modes, and
    [0.0] in the full-text search and full-text ranking modes. *)
Theorem mapped_rows_score (self : AzureCosmosDBNoSqlVectorSearch)
  (query search_type : string) (parameters : list (string * pyval))
  (with_embedding : bool) (projection_mapping : option (list (string * string)))
  (c c' : Container) (docs_and_scores : list (Document * pyval)) :
  _execute_query self query search_type parameters with_embedding projection_mapping c
  = (Ok docs_and_scores, c') ->
  exists rows,
    query_items (_container self) query parameters (items c) = Ok rows
    /\ Forall2 (fun item ds => score_rule search_type item (snd ds))
         rows docs_and_scores.
Proof.
  unfold _execute_query, call_query_items, mbind, lift.
  destruct (query_items (_container self) query parameters (items c))
    as [rows | e]; [| discriminate].
  intros [= H _]. exists rows. split; [reflexivity |].
  apply for_each_Forall2 in H.
  induction H as [| item ds rows out Hitem _ IH]; constructor; [| exact IH].
  destruct ds as [doc score]. eapply document_of_item_score. exact Hitem.
Qed.

Lemma mapped_rows_score_witness :
  (exists rows,
     query_items (_container example_cosmos) "SELECT" [] example_items = Ok rows
     /\ Forall2 (fun item ds => score_rule "vector" item (snd ds)) rows
          [(mk_Document (PStr "hello") (PDict [("page", PInt 3); ("id", PStr "1")]),
            PFloat "0.9");
           (mk_Document (PStr "world") (PDict [("id", PStr "2")]), PFloat "0.25")])
  /\ (exists rows,
        query_items (_container example_cosmos) "SELECT" [] example_items = Ok rows
        /\ Forall2 (fun item ds => score_rule "full_text_search" item (snd ds)) rows
             [(mk_Document (PStr "hello") (PDict [("page", PInt 3); ("id", PStr "1")]),
               PFloat "0.0");
              (mk_Document (PStr "world") (PDict [("id", PStr "2")]), PFloat "0.0")]).
Proof.
  split.
  - apply (mapped_rows_score example_cosmos "SELECT" "vector" [] false None
             (mk_Container example_items [])
             (mk_Container example_items [QueryItems "SELECT" []])).
    reflexivity.
  - apply (mapped_rows_score example_cosmos "SELECT" "full_text_search" [] false None
             (mk_Container example_items [])
             (mk_Container example_items [QueryItems "SELECT" []])).
    reflexivity.
Defined.

(** ** Query building and the limit *)







(** ** Ingest *)

Lemma ids_from_metadatas_runs (metadatas : list pyval) :
  forallb is_dict metadatas = true ->
  forall w, exists ids w',
    ids_from_metadatas metadatas w = (Ok ids, w')
    /\ List.length ids = List.length metadatas
    /\ table w' = table w /\ embed_calls w' = embed_calls w.
Proof.
  induction metadatas as [| m rest IH]; intros Hdict w; simpl.
  - exists [], w. repeat split.
  - simpl in Hdict. apply andb_true_iff in Hdict as [Hm Hrest].
    destruct m as [| b | n | r | s | xs | xs | kvs | n]; try discriminate Hm.
    unfold mbind, uuid4, lift. cbn.
    match goal with
    | |- context [ids_from_metadatas rest ?w1] =>
        destruct (IH Hrest w1) as (ids & w' & Hrun & Hlen & Htable & Hcalls)
    end.
    destruct (dict_get "id" kvs); cbn; rewrite Hrun; cbn;
      eexists; eexists; (split; [reflexivity |]); cbn;
      (split; [now rewrite Hlen | split; assumption]).
Qed.

Lemma skipn_nth_error {A : Type} (l : list A) :
  forall (n : nat) (x : A),
    nth_error l n = Some x -> skipn n l = x :: skipn (S n) l.
Proof.
  induction l as [| a rest IH]; intros [| n] x H; try discriminate.
  - injection H as ->. reflexivity.
  - cbn in H. apply IH in H. exact H.
Qed.

Lemma insert_loop_runs (self : SQLServer_VectorStore) (embeddings : list Vector)
  (metadatas : list pyval) (texts : list string) :
  forall (idx : nat) (ids : list pyval) (documents : list InsertValues) (w : World),
    (idx <= List.length ids)%nat ->
    (idx + List.length texts <= List.length embeddings)%nat ->
    exists extra added w',
      insert_loop self texts idx embeddings metadatas ids documents w
      = (Ok (ids ++ extra, documents ++ added), w')
      /\ List.length (ids ++ extra)
         = Nat.max (List.length ids) (idx + List.length texts)
      /\ map values_content added = texts
      /\ map values_custom_id added
         = map py_str (firstn (List.length texts) (skipn idx (ids ++ extra)))
      /\ table w' = table w /\ embed_calls w' = embed_calls w.
Proof.
  induction texts as [| query rest IH]; intros idx ids documents w Hidx Hemb.
  - exists [], [], w. cbn. rewrite !app_nil_r. repeat split. lia.
  - cbn in Hemb. cbn [insert_loop].
    destruct (nth_error embeddings idx) as [embedding |] eqn:Hnth;
      [| apply nth_error_None in Hnth; lia].
    destruct (nth_error ids idx) as [id |] eqn:Hid.
    + unfold mbind at 1. cbn -[firstn skipn Nat.max].
      assert (Hlt : (idx < List.length ids)%nat)
        by (apply nth_error_Some; congruence).
      match goal with
      | |- context [insert_loop self rest (S idx) embeddings metadatas ids ?docs1 w] =>
          destruct (IH (S idx) ids docs1 w ltac:(lia) ltac:(lia))
            as (extra & added & w' & Hrun & Hlen & Hcontent & Hcustom & Htable & Hcalls)
      end.
      rewrite Hrun. eexists extra, (_ :: added), w'.
      rewrite <- app_assoc. split; [reflexivity |].
      split; [rewrite Hlen; lia |].
      split; [cbn; now rewrite Hcontent |].
      split; [| split; assumption].
      assert (Hskip : skipn idx (ids ++ extra) = id :: skipn (S idx) (ids ++ extra)).
      { apply skipn_nth_error. rewrite nth_error_app1 by exact Hlt. exact Hid. }
      rewrite Hskip. cbn [map firstn]. rewrite Hcustom. reflexivity.
    + apply nth_error_None in Hid.
      assert (Heq : idx = List.length ids) by lia.
      unfold mbind at 1. unfold mbind at 1. unfold uuid4 at 1.
      cbn -[firstn skipn Nat.max].
      match goal with
      | |- context [insert_loop self rest (S idx) embeddings metadatas ?ids1 ?docs1 ?w1] =>
          destruct (IH (S idx) ids1 docs1 w1
                      ltac:(rewrite length_app; cbn; lia) ltac:(lia))
            as (extra & added & w' & Hrun & Hlen & Hcontent & Hcustom & Htable & Hcalls)
      end.
      rewrite Hrun. eexists (_ :: extra), (_ :: added), w'.
      rewrite <- !app_assoc. cbn [app]. split; [reflexivity |].
      rewrite <- app_assoc in Hlen, Hcustom. cbn [app] in Hlen, Hcustom.
      split; [rewrite Hlen; rewrite length_app; cbn; lia |].
      split; [cbn; now rewrite Hcontent |].
      split; [| split; assumption].
      assert (Hskip : forall x, skipn idx (ids ++ x :: extra)
                                = x :: skipn (S idx) (ids ++ x :: extra)).
      { intros x. apply skipn_nth_error. subst idx.
        rewrite nth_error_app2 by lia. rewrite Nat.sub_diag. reflexivity. }
      rewrite Hskip. cbn [map firstn]. rewrite Hcustom. reflexivity.
Qed.

Lemma stored_rows_columns (documents : list InsertValues) :
  forall next_id,
    map content (stored_rows documents next_id) = map values_content documents
    /\ map custom_id (stored_rows documents next_id)
       = map (fun d => Some (values_custom_id d)) documents.
Proof.
  induction documents as [| d rest IH]; intros next_id; cbn; [split; reflexivity |].
  destruct (IH (S next_id)) as [H1 H2]. rewrite H1, H2. split; reflexivity.
Qed.

Lemma insert_embeddings_runs (self : SQLServer_VectorStore) (batch : list string)
  (vectors : list Vector) (metadatas ids : option (list pyval)) (w : World) :
  (List.length batch <= List.length vectors)%nat ->
  (forall documents rows, refuses (_bind self) (InsertRows documents) rows = None) ->
  lists_fit batch metadatas ids ->
  exists ids' rows w',
    _insert_embeddings self batch vectors metadatas ids w = (Ok ids', w')
    /\ List.length ids' = List.length batch
    /\ table w' = table w ++ rows
    /\ map content rows = batch
    /\ map custom_id rows = map (fun i => Some (py_str i)) ids'
    /\ embed_calls w' = embed_calls w.
Proof.
  intros Hvectors Hruns Hfit.
  assert (Hstart : exists ids0 w0,
             (match ids with
              | Some ids => ret ids
              | None =>
                  ids_from_metadatas
                    match metadatas with
                    | Some metadatas => metadatas
                    | None => map (fun _ => PDict []) batch
                    end
              end) w = (Ok ids0, w0)
             /\ (List.length ids0 <= List.length batch)%nat
             /\ table w0 = table w /\ embed_calls w0 = embed_calls w).
  { destruct ids as [ids |].
    - exists ids, w. repeat split. exact Hfit.
    - destruct metadatas as [metadatas |].
      + destruct Hfit as [Hlen Hdict].
        destruct (ids_from_metadatas_runs metadatas Hdict w)
          as (ids0 & w0 & Hrun & Hl & Ht & Hc).
        exists ids0, w0. repeat split; try assumption. lia.
      + assert (Hdict : forallb is_dict (map (fun _ : string => PDict []) batch) = true).
        { clear. induction batch; [reflexivity | exact IHbatch]. }
        destruct (ids_from_metadatas_runs _ Hdict w)
          as (ids0 & w0 & Hrun & Hl & Ht & Hc).
        exists ids0, w0. repeat split; try assumption.
        rewrite Hl, length_map. lia. }
  destruct Hstart as (ids0 & w0 & Hrun0 & Hlen0 & Htable0 & Hcalls0).
  destruct (insert_loop_runs self vectors
              match metadatas with
              | Some metadatas => metadatas
              | None => map (fun _ => PDict []) batch
              end batch 0 ids0 [] w0 ltac:(lia) ltac:(cbn; lia))
    as (extra & added & w1 & Hloop & Hlen1 & Hcontent & Hcustom & Htable1 & Hcalls1).
  unfold _insert_embeddings, try_except.
  unfold mbind at 1. rewrite Hrun0.
  unfold mbind at 1. rewrite Hloop. cbn [app].
  unfold mbind at 1. unfold execute_insert, mbind, send. rewrite Hruns. cbn.
  eexists (ids0 ++ extra), _, _. split; [reflexivity |].
  assert (Hlen : List.length (ids0 ++ extra) = List.length batch) by lia.
  destruct (stored_rows_columns added (uuids_drawn w1)) as [Hc1 Hc2].
  split; [exact Hlen |].
  split; [cbn; rewrite Htable1, Htable0; reflexivity |].
  split; [rewrite Hc1; exact Hcontent |].
  split; [| cbn; congruence].
  rewrite Hc2. rewrite <- (map_map values_custom_id Some), Hcustom.
  cbn [skipn]. rewrite <- Hlen, firstn_all, map_map. reflexivity.
Qed.

Lemma length_slice {A : Type} (l : list A) (i n : nat) :
  List.length (slice l i n) = Nat.min n (List.length l - i).
Proof. unfold slice. rewrite length_firstn, length_skipn. reflexivity. Qed.

Lemma forallb_slice {A : Type} (p : A -> bool) (l : list A) (i n : nat) :
  forallb p l = true -> forallb p (slice l i n) = true.
Proof.
  rewrite !forallb_forall. intros H x Hx. apply H. unfold slice in Hx.
  rewrite <- (firstn_skipn i l). apply in_or_app. right.
  rewrite <- (firstn_skipn n (skipn i l)). apply in_or_app. left. exact Hx.
Qed.

Lemma lists_fit_slice (texts : list string) (metadatas ids : option (list pyval))
  (i n : nat) :
  lists_fit texts metadatas ids ->
  lists_fit (slice texts i n)
    (option_map (fun metadatas => slice metadatas i n) metadatas)
    (option_map (fun ids => slice ids i n) ids).
Proof.
  unfold lists_fit. destruct ids as [ids |]; cbn.
  - rewrite !length_slice. lia.
  - destruct metadatas as [metadatas |]; cbn; [| trivial].
    intros [Hlen Hdict]. rewrite !length_slice.
    split; [lia | apply forallb_slice; exact Hdict].
Qed.

Lemma add_texts_loop_runs (self : SQLServer_VectorStore) (texts : list string)
  (metadatas ids : option (list pyval)) (batch_size : nat) :
  (0 < batch_size)%nat ->
  (forall batch, exists vectors,
      embed_documents (embedding_function self) batch = Ok vectors
      /\ List.length vectors = List.length batch) ->
  (forall documents rows, refuses (_bind self) (InsertRows documents) rows = None) ->
  lists_fit texts metadatas ids ->
  forall (rounds i : nat) (embedded_texts : list pyval) (w : World),
    (List.length texts - i <= rounds)%nat ->
    exists out rows w',
      add_texts_loop rounds self texts metadatas ids batch_size i embedded_texts w
      = (Ok (embedded_texts ++ out), w')
      /\ List.length out = (List.length texts - i)%nat
      /\ embed_calls w' = embed_calls w ++ batches_from rounds batch_size (skipn i texts)
      /\ table w' = table w ++ rows
      /\ map content rows = skipn i texts
      /\ map custom_id rows = map (fun x => Some (py_str x)) out.
Proof.
  intros Hsize Hprovider Hruns Hfit.
  induction rounds as [| rounds IH]; intros i acc w Hrounds.
  - exists [], [], w. cbn. rewrite !app_nil_r.
    rewrite (skipn_all2 texts) by lia. repeat split. lia.
  - cbn [add_texts_loop].
    destruct (Nat.ltb_spec i (List.length texts)) as [Hlt | Hge].
    + destruct (Hprovider (slice texts i batch_size)) as (vectors & Hembed & Hvectors).
      unfold mbind at 1. unfold call_embed_documents at 1. rewrite Hembed.
      cbv beta iota. unfold mbind at 1.
      match goal with
      | |- context [_insert_embeddings self ?b vectors ?m ?d ?w1] =>
          destruct (insert_embeddings_runs self b vectors m d w1
                      ltac:(lia) Hruns (lists_fit_slice _ _ _ i batch_size Hfit))
            as (ids1 & rows1 & w1' & Hrun1 & Hlen1 & Htable1 & Hcontent1 & Hcustom1 & Hcalls1)
      end.
      rewrite Hrun1.
      destruct (IH (i + batch_size)%nat (acc ++ ids1) w1' ltac:(lia))
        as (out & rows & w' & Hrun & Hlen & Hcalls & Htable & Hcontent & Hcustom).
      rewrite Hrun. exists (ids1 ++ out), (rows1 ++ rows), w'.
      rewrite <- app_assoc. split; [reflexivity |].
      split; [rewrite length_app, Hlen1, Hlen, length_slice; lia |].
      split.
      { rewrite Hcalls, Hcalls1. cbn [embed_calls]. rewrite <- app_assoc. f_equal.
        destruct (skipn i texts) as [| t rest] eqn:Hskip.
        - apply (f_equal (@List.length string)) in Hskip.
          rewrite length_skipn in Hskip. cbn in Hskip. lia.
        - cbn [batches_from app]. rewrite <- Hskip.
          rewrite skipn_skipn, (Nat.add_comm batch_size i). reflexivity. }
      split; [rewrite Htable, Htable1; cbn [table]; now rewrite app_assoc |].
      split.
      { rewrite map_app, Hcontent1, Hcontent. unfold slice.
        rewrite (Nat.add_comm i batch_size), <- skipn_skipn.
        apply firstn_skipn. }
      rewrite !map_app, Hcustom1, Hcustom. reflexivity.
    + exists [], [], w. rewrite !app_nil_r.
      rewrite (skipn_all2 texts) by lia. cbn. rewrite app_nil_r.
      repeat split. lia.
Qed.

Lemma batches_from_cover (n : nat) :
  (0 < n)%nat ->
  forall (rounds : nat) (texts : list string),
    (List.length texts <= rounds)%nat ->
    List.concat (batches_from rounds n texts) = texts
    /\ Forall (fun batch => (0 < List.length batch <= n)%nat)
         (batches_from rounds n texts).
Proof.
  intros Hn. induction rounds as [| rounds IH]; intros texts Hlen.
  - destruct texts; [split; [reflexivity | constructor] | cbn in Hlen; lia].
  - destruct texts as [| t rest]; [split; [reflexivity | constructor] |].
    cbn [batches_from List.concat].
    destruct (IH (skipn n (t :: rest))) as [Hcat Hall].
    { rewrite length_skipn. cbn [List.length] in *. lia. }
    rewrite Hcat, firstn_skipn. split; [reflexivity |].
    constructor; [| exact Hall].
    rewrite length_firstn. cbn [List.length]. lia.
Qed.

(** C7, as the code has it.  When the batch size is valid, the embedding
    provider gives one vector per text, the server runs every insert and the
    caller's ids (or, without ids, the metadatas, all dicts) are not more
    than the texts, [add_texts] calls the provider once per consecutive
    batch of [batch_size] texts, in order, and gives back one id per text:
    the table grows by one row per text, in input order, the row of the
    i-th text carrying the i-th id. *)
Theorem ingest_in_batches (self : SQLServer_VectorStore) (texts : list string)
  (metadatas ids : option (list pyval)) (w : World) :
  (0 < _batch_size self <= MAX_BATCH_SIZE)%Z ->
  (forall batch, exists vectors,
      embed_documents (embedding_function self) batch = Ok vectors
      /\ List.length vectors = List.length batch) ->
  (forall documents rows, refuses (_bind self) (InsertRows documents) rows = None) ->
  lists_fit texts metadatas ids ->
  exists out rows w',
    add_texts self (Some texts) metadatas ids w = (Ok out, w')
    /\ embed_calls w' = embed_calls w ++ batches (Z.to_nat (_batch_size self)) texts
    /\ List.concat (batches (Z.to_nat (_batch_size self)) texts) = texts
    /\ Forall (fun batch =>
                 (0 < List.length batch <= Z.to_nat (_batch_size self))%nat)
         (batches (Z.to_nat (_batch_size self)) texts)
    /\ List.length out = List.length texts
    /\ table w' = table w ++ rows
    /\ map content rows = texts
    /\ map custom_id rows = map (fun id => Some (py_str id)) out.
Proof.
  intros Hsize Hprovider Hruns Hfit.
  assert (Hpos : (0 < Z.to_nat (_batch_size self))%nat) by lia.
  destruct (add_texts_loop_runs self texts metadatas ids _ Hpos Hprovider Hruns Hfit
              (List.length texts) 0 [] w ltac:(lia))
    as (out & rows & w' & Hrun & Hlen & Hcalls & Htable & Hcontent & Hcustom).
  destruct (batches_from_cover _ Hpos (List.length texts) texts (le_n _))
    as [Hcat Hall].
  exists out, rows, w'.
  split.
  { unfold add_texts, _validate_batch_size, mbind.
    destruct ((_batch_size self <=? 0)%Z || (MAX_BATCH_SIZE <? _batch_size self)%Z)
      eqn:Hbad.
    - apply orb_true_iff in Hbad as [Hbad | Hbad]; lia.
    - cbn. exact Hrun. }
  cbn [skipn] in Hcalls, Hcontent. rewrite Nat.sub_0_r in Hlen.
  repeat split; assumption.
Qed.

Lemma ingest_in_batches_witness :
  exists out rows w',
    add_texts example_store (Some ["a"; "b"; "c"]) None None empty_world = (Ok out, w')
    /\ embed_calls w' = embed_calls empty_world ++ batches 2 ["a"; "b"; "c"]
    /\ List.concat (batches 2 ["a"; "b"; "c"]) = ["a"; "b"; "c"]
    /\ Forall (fun batch => (0 < List.length batch <= 2)%nat) (batches 2 ["a"; "b"; "c"])
    /\ List.length out = 3%nat
    /\ table w' = table empty_world ++ rows
    /\ map content rows = ["a"; "b"; "c"]
    /\ map custom_id rows = map (fun id => Some (py_str id)) out.
Proof.
  apply (ingest_in_batches example_store ["a"; "b"; "c"] None None empty_world).
  - unfold MAX_BATCH_SIZE. simpl. lia.
  - intros batch. eexists. split; [reflexivity | apply length_map].
  - reflexivity.
  - exact I.
Defined.

(** The example of the specification: three texts, batch size two. *)
Example ingest_three_texts_in_two_batches :
  let run := add_texts example_store (Some ["a"; "b"; "c"]) None None empty_world in
  embed_calls (snd run) = [["a"; "b"]; ["c"]]
  /\ fst run = Ok [PUUID 0; PUUID 1; PUUID 4]
  /\ map content (table (snd run)) = ["a"; "b"; "c"]
  /\ map custom_id (table (snd run))
     = [Some (uuid_text 0); Some (uuid_text 1); Some (uuid_text 4)].
Proof. cbv zeta. repeat split. Qed.

(** C7, as the claim states it, fails: one text handed in with two ids comes
    back as two ids. *)
Lemma more_ids_than_texts :
  fst (add_texts example_store (Some ["a"]) None (Some [PStr "x"; PStr "y"]) empty_world)
  = Ok [PStr "x"; PStr "y"]
  /\ List.length [PStr "x"; PStr "y"] <> List.length ["a"].
Proof. split; [reflexivity | discriminate]. Qed.

(** ** Maximal marginal relevance search *)

(** The document store gives back the documents at the selected positions,
    in the order of the selection. *)
Lemma document_store_mmr_in_selection_order (imports : Imports)
  (self : AzureCosmosDBNoSqlVectorSearch) (embedding : Vector) (k fetch_k : Z)
  (lambda_mult search_type : string) (with_embedding : bool)
  (where_ : option string) (c c' : Container) (mmr_docs : list Document) :
  langchain_azure_ai.max_marginal_relevance_search_by_vector imports self embedding
    k fetch_k lambda_mult search_type with_embedding where_ c
  = (Ok mmr_docs, c') ->
  exists docs embedding_list,
    vector_search_with_score self search_type embedding fetch_k with_embedding
      None None where_ c = (Ok docs, c')
    /\ Forall2 (fun i doc => option_map fst (nth_error docs i) = Some doc)
         (maximal_marginal_relevance imports embedding embedding_list lambda_mult k)
         mmr_docs.
Proof.
  unfold langchain_azure_ai.max_marginal_relevance_search_by_vector.
  unfold mbind at 1.
  destruct (vector_search_with_score self search_type embedding fetch_k
              with_embedding None None where_ c) as [[docs | e] c1];
    [| discriminate].
  unfold mbind, lift.
  destruct (for_each _ docs) as [embedding_list | e]; [| discriminate].
  destruct (for_each _ (maximal_marginal_relevance imports embedding embedding_list
                          lambda_mult k)) as [out | e] eqn:Hout; [| discriminate].
  intros [= <- <-]. exists docs, embedding_list. split; [reflexivity |].
  apply for_each_Forall2 in Hout.
  induction Hout as [| i doc sel out Hi _ IH]; constructor; [| exact IH].
  destruct (nth_error docs i) as [ds |]; [| discriminate].
  injection Hi as <-. reflexivity.
Qed.

(** The relational store keeps a document when its position is among the
    selected ones: when every position is selected, what comes back is the
    result set in the order of the store, whatever the order of selection. *)
Lemma enumerate_if_in_all {A : Type} (values : list A) (selects : list nat) :
  forall idx,
    (forall i, (i < List.length values)%nat -> In (idx + i)%nat selects) ->
    enumerate_if_in idx values selects = values.
Proof.
  induction values as [| v rest IH]; intros idx Hall; [reflexivity |].
  cbn [enumerate_if_in].
  assert (Hin : existsb (Nat.eqb idx) selects = true).
  { apply existsb_exists. exists idx. split; [| apply Nat.eqb_refl].
    specialize (Hall 0%nat). rewrite Nat.add_0_r in Hall. apply Hall. cbn. lia. }
  rewrite Hin. f_equal. apply IH. intros i Hi.
  replace (S idx + i)%nat with (idx + S i)%nat by lia. apply Hall. cbn. lia.
Qed.

(** C3, on the code.  Three candidates come from the store in the order
    first, second, third; the greedy selection takes them in the order
    first, third, second.  The document store gives back first, third,
    second; the relational store gives back first, second, third, the order
    of the store. *)
Theorem relational_mmr_gives_store_order :
  maximal_marginal_relevance example_imports ["1.0"; "0.0"]
    [["1.0"; "0.0"]; ["0.8"; "0.6"]; ["0.6"; "-0.8"]] "0.25" 3
  = [0; 2; 1]%nat
  /\ fst (langchain_sqlserver.max_marginal_relevance_search_by_vector example_imports
            example_store ["1.0"; "0.0"] 3 3 "0.25" PNone three_rows_world)
     = Ok [mk_Document (PStr "first") (PDict []);
           mk_Document (PStr "second") (PDict []);
           mk_Document (PStr "third") (PDict [])]
  /\ match fst (langchain_azure_ai.max_marginal_relevance_search_by_vector
                  example_imports example_cosmos ["1.0"; "0.0"] 3 3 "0.25" "vector"
                  true None (mk_Container three_items [])) with
     | Ok docs => map page_content docs
     | Raise _ => []
     end
     = [PStr "first"; PStr "third"; PStr "second"].
Proof. split; [| split]; vm_compute; reflexivity. Qed.

(** * More of the code *)

(** ** The filter compiler: how mappings are read *)

(** A field given a plain value is compared for equality: for a key that is
    not an operator, the mapping [{field: value}], [value] not a dict,
    compiles as [{field: {"$eq": value}}] does, clause or error. *)
Theorem plain_value_means_equality (table_name field : string) (value : pyval) :
  startswith field "$" = false ->
  is_dict value = false ->
  _create_filter_clause table_name (PDict [(field, value)])
  = _create_filter_clause table_name (PDict [(field, PDict [("$eq", value)])]).
Proof.
  intros Hfield Hvalue. cbn -[_handle_field_filter]. rewrite Hfield. f_equal.
  unfold _handle_field_filter. rewrite Hfield.
  destruct (isidentifier field); [| reflexivity].
  destruct value; try discriminate Hvalue; reflexivity.
Qed.

Lemma plain_value_means_equality_witness :
  _create_filter_clause "docs" (PDict [("year", PInt 2024)])
  = _create_filter_clause "docs" (PDict [("year", PDict [("$eq", PInt 2024)])]).
Proof. apply (plain_value_means_equality "docs" "year" (PInt 2024)); reflexivity. Defined.

Lemma create_filter_clause_field (table_name key : string) (value : pyval) :
  startswith key "$" = false ->
  _create_filter_clause table_name (PDict [(key, value)])
  = (c <- _handle_field_filter table_name key value ;; Ok (Some c)).
Proof. intros H. cbn -[_handle_field_filter startswith]. rewrite H. reflexivity. Qed.

Lemma for_each_map {A B C : Type} (f : B -> result C) (g : A -> B) (xs : list A) :
  for_each f (map g xs) = for_each (fun x => f (g x)) xs.
Proof.
  induction xs as [| x rest IH]; [reflexivity |]. cbn. rewrite IH. reflexivity.
Qed.

Lemma for_each_ext {A B : Type} (f g : A -> result B) (xs : list A) :
  (forall x, In x xs -> f x = g x) -> for_each f xs = for_each g xs.
Proof.
  induction xs as [| x rest IH]; intros H; [reflexivity |]. cbn.
  rewrite (H x (or_introl eq_refl)), IH; [reflexivity |].
  intros y Hy. apply H. right. exact Hy.
Qed.

Lemma find_none_forall {A : Type} (p : A -> bool) (xs : list A) :
  find p xs = None <-> forall x, In x xs -> p x = false.
Proof.
  split.
  - intros H x Hx. eapply find_none; eassumption.
  - induction xs as [| x rest IH]; intros H; [reflexivity |]. cbn.
    rewrite (H x (or_introl eq_refl)). apply IH. intros y Hy. apply H. right. exact Hy.
Qed.

(** Several fields in one mapping are joined by [AND]: when no key is an
    operator, a mapping of two or more fields compiles as the [$and] of
    its one-field mappings does, clause or error. *)
Theorem several_fields_mean_and (table_name : string)
  (first second : string * pyval) (others : list (string * pyval)) :
  (forall kv, In kv (first :: second :: others) -> startswith (fst kv) "$" = false) ->
  _create_filter_clause table_name (PDict (first :: second :: others))
  = _create_filter_clause table_name
      (PDict [("$and", PList (map (fun kv => PDict [kv]) (first :: second :: others)))]).
Proof.
  intros Hfields. rewrite create_filter_clause_and.
  set (kvs := first :: second :: others) in *.
  assert (Hfind : find (fun kv : string * pyval => startswith (fst kv) "$") kvs = None)
    by (apply find_none_forall; exact Hfields).
  transitivity
    (and_ <- for_each
               (fun kv => c <- _handle_field_filter table_name (fst kv) (snd kv) ;;
                          Ok (Some c)) kvs ;;
     join_clauses sqlalchemy_and_ and_).
  - subst kvs. destruct first as [k1 v1], second as [k2 v2].
    cbn -[_handle_field_filter for_each find] in *. rewrite Hfind. reflexivity.
  - f_equal. rewrite for_each_map. apply for_each_ext.
    intros [k v] Hkv. symmetry. apply create_filter_clause_field.
    exact (Hfields (k, v) Hkv).
Qed.

Lemma several_fields_mean_and_witness :
  _create_filter_clause "docs" (PDict [("year", PInt 2024); ("lang", PStr "en")])
  = _create_filter_clause "docs"
      (PDict [("$and", PList [PDict [("year", PInt 2024)]; PDict [("lang", PStr "en")]])]).
Proof.
  apply (several_fields_mean_and "docs" ("year", PInt 2024) ("lang", PStr "en") []).
  intros kv [<- | [<- | []]]; reflexivity.
Defined.

Lemma startswith_dollar (c : ascii) (rest : string) :
  startswith (String c rest) "$" = Ascii.eqb c "$".
Proof.
  unfold startswith.
  change (String.prefix "$" (String c rest))
    with (if Ascii.ascii_dec "$"%char c then String.prefix "" rest else false).
  destruct (Ascii.ascii_dec "$"%char c) as [<- | ne].
  - destruct rest; reflexivity.
  - symmetry. apply Ascii.eqb_neq. congruence.
Qed.

Lemma lower_startswith_dollar (key : string) :
  startswith (lower key) "$" = true -> startswith key "$" = true.
Proof.
  destruct key as [| c rest]; [intros H; exact H |].
  simpl lower. rewrite !startswith_dollar.
  destruct c as [[] [] [] [] [] [] [] []]; vm_compute; intros H;
    try discriminate H; reflexivity.
Qed.

(** The keys [$and] and [$or] are read in any letter case: a key whose
    lower-case form is [$and] or [$or] compiles as that form does, clause
    or error. *)
Theorem logical_key_case_is_ignored (table_name key : string) (value : pyval) :
  lower key = "$and" \/ lower key = "$or" ->
  _create_filter_clause table_name (PDict [(key, value)])
  = _create_filter_clause table_name (PDict [(lower key, value)]).
Proof.
  intros H.
  assert (Hkey : startswith key "$" = true)
    by (apply lower_startswith_dollar; destruct H as [-> | ->]; reflexivity).
  cbn -[startswith lower mem_str String.eqb]. rewrite Hkey.
  destruct H as [-> | ->]; reflexivity.
Qed.

Lemma logical_key_case_is_ignored_witness :
  _create_filter_clause "docs"
    (PDict [("$AND", PList [PDict [("year", PInt 2024)]; PDict [("lang", PStr "en")]])])
  = _create_filter_clause "docs"
      (PDict [("$and", PList [PDict [("year", PInt 2024)]; PDict [("lang", PStr "en")]])]).
Proof.
  apply (logical_key_case_is_ignored "docs" "$AND"
           (PList [PDict [("year", PInt 2024)]; PDict [("lang", PStr "en")]])).
  left. reflexivity.
Defined.

(** ** The filter compiler: what an accepted clause reads *)















(** ** Search in the relational store: what goes wrong, and when *)

Lemma search_store_refused_early (self : SQLServer_VectorStore) (embedding : Vector)
  (k : Z) (filter : pyval) (marginal_relevance : bool) (w : World) :
  (exists e, _create_filter_clause (table_name self) filter = Raise e)
  \/ (exists e, distance_strategy self = Raise e) ->
  exists e w',
    _search_store self embedding k filter marginal_relevance w = (Raise e, w')
    /\ executed w' = executed w /\ table w' = table w
    /\ embed_calls w' = embed_calls w.
Proof.
  intros H. unfold _search_store, try_except, mbind, lift.
  destruct H as [[e He] | [e He]]; rewrite He;
    [| destruct (_create_filter_clause (table_name self) filter) as [c | e']];
    match goal with
    | |- context [cause_of_ProgrammingError ?x] =>
        destruct (cause_of_ProgrammingError x) as [cause |]
    end;
    eexists; eexists; (split; [reflexivity |]); repeat split.
Qed.

(** A search whose filter the compiler refuses, or whose distance strategy
    is not one of the three supported, raises before anything reaches the
    server: no statement is sent and the table is as it was. *)
Theorem refused_search_sends_no_statement (self : SQLServer_VectorStore)
  (embedding : Vector) (k : Z) (filter : pyval) (w : World) :
  (exists e, _create_filter_clause (table_name self) filter = Raise e)
  \/ (exists e, distance_strategy self = Raise e) ->
  exists e w',
    similarity_search_by_vector_with_score self embedding k filter w = (Raise e, w')
    /\ executed w' = executed w /\ table w' = table w.
Proof.
  intros H.
  destruct (search_store_refused_early self embedding k filter false w H)
    as (e & w' & Hrun & Hexecuted & Htable & _).
  exists e, w'. unfold similarity_search_by_vector_with_score, mbind.
  rewrite Hrun. repeat split; assumption.
Qed.

Lemma refused_search_sends_no_statement_witness :
  exists e w',
    similarity_search_by_vector_with_score example_store ["1.0"; "0.0"] 4
      (PDict [("$not", PList [])]) two_rows_world = (Raise e, w')
    /\ executed w' = executed two_rows_world /\ table w' = table two_rows_world.
Proof.
  apply (refused_search_sends_no_statement example_store ["1.0"; "0.0"] 4
           (PDict [("$not", PList [])]) two_rows_world).
  left. eexists. reflexivity.
Defined.



(** ** Ingest in the relational store: what goes wrong, and when *)

(** With a batch size that is not between 1 and [MAX_BATCH_SIZE],
    [add_texts] on any list of texts logs the error and raises
    [ValueError]: the embedding provider is not called and nothing is sent
    to the server. *)
Theorem invalid_batch_size_ingests_nothing (self : SQLServer_VectorStore)
  (texts : list string) (metadatas ids : option (list pyval)) (w : World) :
  (_batch_size self <= 0 \/ MAX_BATCH_SIZE < _batch_size self)%Z ->
  exists message w',
    add_texts self (Some texts) metadatas ids w = (Raise (ValueError message), w')
    /\ embed_calls w' = embed_calls w
    /\ executed w' = executed w
    /\ table w' = table w
    /\ log w' = log w ++ [("error", "The request contains an invalid batch_size.")].
Proof.
  intros Hsize. unfold add_texts, _validate_batch_size.
  assert (Hcheck : (_batch_size self <=? 0)%Z
                   || (MAX_BATCH_SIZE <? _batch_size self)%Z = true).
  { apply Bool.orb_true_iff. destruct Hsize; [left | right]; lia. }
  rewrite Hcheck. eexists. eexists. split; [reflexivity |]. repeat split.
Qed.

Lemma invalid_batch_size_ingests_nothing_witness :
  exists message w',
    add_texts
      (mk_SQLServer_VectorStore "sqlserver_vectorstore" 420 2 "cosine"
         example_embeddings example_engine)
      (Some ["first"]) None None empty_world
    = (Raise (ValueError message), w')
    /\ embed_calls w' = embed_calls empty_world
    /\ executed w' = executed empty_world
    /\ table w' = table empty_world
    /\ log w' = log empty_world
                ++ [("error", "The request contains an invalid batch_size.")].
Proof.
  apply (invalid_batch_size_ingests_nothing
           (mk_SQLServer_VectorStore "sqlserver_vectorstore" 420 2 "cosine"
              example_embeddings example_engine)
           ["first"] None None empty_world).
  right. unfold MAX_BATCH_SIZE. simpl. lia.
Defined.

Lemma same_but_uuids_refl (w : World) : same_but_uuids w w.
Proof. repeat split. Qed.

Lemma same_but_uuids_trans (w w1 w2 : World) :
  same_but_uuids w w1 -> same_but_uuids w1 w2 -> same_but_uuids w w2.
Proof.
  unfold same_but_uuids. intros (H1 & H2 & H3 & H4) (K1 & K2 & K3 & K4).
  repeat split; congruence.
Qed.

Lemma ids_from_metadatas_frame (metadatas : list pyval) :
  forall w, same_but_uuids w (snd (ids_from_metadatas metadatas w)).
Proof.
  induction metadatas as [| m rest IH]; intros w; [apply same_but_uuids_refl |].
  cbn [ids_from_metadatas]. unfold mbind at 1. unfold uuid4 at 1.
  unfold mbind at 1. unfold lift at 1.
  set (w1 := mk_World (table w) (log w) (S (uuids_drawn w)) (embed_calls w) (executed w)).
  assert (H1 : same_but_uuids w w1) by (repeat split).
  destruct (metadata_get_id m (PUUID (uuids_drawn w))) as [id | e]; [| exact H1].
  unfold mbind. specialize (IH w1).
  destruct (ids_from_metadatas rest w1) as [[ids | e] w2]; cbn [snd] in *;
    eapply same_but_uuids_trans; eassumption.
Qed.

Lemma insert_loop_frame (self : SQLServer_VectorStore) (embeddings : list Vector)
  (metadatas : list pyval) (texts : list string) :
  forall (idx : nat) (ids : list pyval) (documents : list InsertValues) (w : World),
    same_but_uuids w
      (snd (insert_loop self texts idx embeddings metadatas ids documents w)).
Proof.
  induction texts as [| query rest IH]; intros idx ids documents w;
    [apply same_but_uuids_refl |].
  cbn [insert_loop].
  destruct (nth_error ids idx) as [id |];
    destruct (nth_error embeddings idx) as [embedding |];
    unfold mbind, ret, throw, uuid4; cbn [snd];
    try (apply same_but_uuids_refl); try (repeat split; fail).
  - apply IH.
  - eapply same_but_uuids_trans; [| apply IH]. repeat split.
Qed.


Lemma insert_embeddings_refused (self : SQLServer_VectorStore) (batch : list string)
  (vectors : list Vector) (metadatas ids : option (list pyval)) (e : exn)
  (cause : string) (w : World) :
  (List.length batch <= List.length vectors)%nat ->
  lists_fit batch metadatas ids ->
  (forall documents rows, refuses (_bind self) (InsertRows documents) rows = Some e) ->
  cause_of_DBAPIError e = Some cause ->
  exists w',
    _insert_embeddings self batch vectors metadatas ids w = (Raise (Exception_ cause), w')
    /\ table w' = table w
    /\ log w' = log w ++ [("error", "Add text failed:" +++ nl +++ " " +++ cause +++ nl)]
    /\ embed_calls w' = embed_calls w.
Proof.
  intros Hvectors Hfit Hrefuses Hcause.
  set (ms := match metadatas with
             | Some metadatas => metadatas
             | None => map (fun _ => PDict []) batch
             end).
  assert (Hstart : exists ids0 w0,
             (match ids with
              | Some ids => ret ids
              | None => ids_from_metadatas ms
              end) w = (Ok ids0, w0)
             /\ (List.length ids0 <= List.length batch)%nat
             /\ same_but_uuids w w0).
  { destruct ids as [ids |].
    - exists ids, w. repeat split. exact Hfit.
    - assert (Hdict : forallb is_dict ms = true /\ (List.length ms <= List.length batch)%nat).
      { subst ms. destruct metadatas as [metadatas |].
        - destruct Hfit as [Hlen Hdict]. split; assumption.
        - rewrite length_map. split; [| lia].
          clear. induction batch; [reflexivity | assumption]. }
      destruct Hdict as [Hdict Hlen].
      destruct (ids_from_metadatas_runs ms Hdict w) as (ids0 & w0 & Hrun & Hl & _ & _).
      exists ids0, w0. split; [exact Hrun |]. split; [lia |].
      pose proof (ids_from_metadatas_frame ms w) as Hframe.
      rewrite Hrun in Hframe. exact Hframe. }
  destruct Hstart as (ids0 & w0 & Hrun0 & Hlen0 & Hframe0).
  destruct (insert_loop_runs self vectors ms batch 0 ids0 [] w0 ltac:(lia) ltac:(cbn; lia))
    as (extra & added & w1 & Hloop & _).
  pose proof (insert_loop_frame self vectors ms batch 0 ids0 [] w0) as Hframe1.
  rewrite Hloop in Hframe1. cbn [snd] in Hframe1.
  destruct (same_but_uuids_trans _ _ _ Hframe0 Hframe1) as (Ht & Hl & Hc & Hx).
  unfold _insert_embeddings, try_except. fold ms.
  unfold mbind at 1. rewrite Hrun0.
  unfold mbind at 1. rewrite Hloop. cbn [app].
  unfold mbind at 1. unfold execute_insert, mbind, send. rewrite Hrefuses.
  rewrite Hcause. cbn. eexists. split; [reflexivity |]. cbn.
  rewrite Ht, Hl, Hc. repeat split.
Qed.

(** When the server refuses the insert of the first batch with an error
    of the driver, [add_texts] logs the cause and raises a plain
    [Exception] carrying it: the table is as it was, and only that first
    batch was handed to the embedding provider. *)
Theorem refused_insert_stores_nothing (self : SQLServer_VectorStore)
  (texts : list string) (metadatas ids : option (list pyval)) (e : exn)
  (cause : string) (w : World) :
  (0 < _batch_size self <= MAX_BATCH_SIZE)%Z ->
  texts <> [] ->
  (forall batch, exists vectors,
      embed_documents (embedding_function self) batch = Ok vectors
      /\ List.length vectors = List.length batch) ->
  lists_fit texts metadatas ids ->
  (forall documents rows, refuses (_bind self) (InsertRows documents) rows = Some e) ->
  cause_of_DBAPIError e = Some cause ->
  exists w',
    add_texts self (Some texts) metadatas ids w = (Raise (Exception_ cause), w')
    /\ table w' = table w
    /\ log w' = log w ++ [("error", "Add text failed:" +++ nl +++ " " +++ cause +++ nl)]
    /\ embed_calls w'
       = embed_calls w ++ [slice texts 0 (Z.to_nat (_batch_size self))].
Proof.
  intros Hsize Htexts Hprovider Hfit Hrefuses Hcause.
  unfold add_texts, _validate_batch_size.
  assert (Hcheck : (_batch_size self <=? 0)%Z
                   || (MAX_BATCH_SIZE <? _batch_size self)%Z = false).
  { apply Bool.orb_false_iff. split; lia. }
  rewrite Hcheck. unfold mbind at 1. unfold ret at 1.
  destruct texts as [| text rest]; [contradiction |].
  set (all := text :: rest) in *. set (size := Z.to_nat (_batch_size self)).
  change (List.length all) with (S (List.length rest)).
  cbn [add_texts_loop]. change (0 <? List.length all)%nat with true. cbv iota.
  destruct (Hprovider (slice all 0 size)) as (vectors & Hembed & Hvectors).
  unfold mbind at 1. unfold call_embed_documents at 1. rewrite Hembed.
  unfold mbind at 1.
  match goal with
  | |- context [_insert_embeddings self ?b vectors ?m ?d ?w1] =>
      destruct (insert_embeddings_refused self b vectors m d e cause w1
                  ltac:(lia) (lists_fit_slice _ _ _ 0 size Hfit) Hrefuses Hcause)
        as (w' & Hrun & Htable & Hlog & Hcalls)
  end.
  rewrite Hrun. exists w'. split; [reflexivity |]. cbn in Htable, Hlog, Hcalls.
  repeat split; assumption.
Qed.

Lemma refused_insert_stores_nothing_witness :
  exists w',
    add_texts (refusing_store (DBAPIError "23000")) (Some ["first"; "second"; "third"])
      None None two_rows_world
    = (Raise (Exception_ "23000"), w')
    /\ table w' = table two_rows_world
    /\ log w' = log two_rows_world
                ++ [("error", "Add text failed:" +++ nl +++ " " +++ "23000" +++ nl)]
    /\ embed_calls w' = embed_calls two_rows_world ++ [["first"; "second"]].
Proof.
  apply (refused_insert_stores_nothing (refusing_store (DBAPIError "23000"))
           ["first"; "second"; "third"] None None (DBAPIError "23000") "23000"
           two_rows_world).
  - unfold MAX_BATCH_SIZE. simpl. lia.
  - discriminate.
  - intros batch. eexists. split; [reflexivity |]. apply length_map.
  - exact I.
  - intros documents rows. reflexivity.
  - reflexivity.
Defined.



(** Batches are stored one by one and never taken back: when the
    embedding provider serves the first batch and fails on the second,
    [add_texts] raises the provider's error and the ids of the first batch
    are not given back, yet its texts are in the table. *)
Theorem failed_batch_keeps_earlier_batches (self : SQLServer_VectorStore)
  (texts : list string) (metadatas ids : option (list pyval)) (vectors : list Vector)
  (e : exn) (size : nat) (w : World) :
  size = Z.to_nat (_batch_size self) ->
  (0 < _batch_size self <= MAX_BATCH_SIZE)%Z ->
  (size < List.length texts)%nat ->
  embed_documents (embedding_function self) (slice texts 0 size) = Ok vectors ->
  List.length vectors = size ->
  embed_documents (embedding_function self) (slice texts size size) = Raise e ->
  (forall documents rows, refuses (_bind self) (InsertRows documents) rows = None) ->
  lists_fit texts metadatas ids ->
  exists rows w',
    add_texts self (Some texts) metadatas ids w = (Raise e, w')
    /\ table w' = table w ++ rows
    /\ map content rows = slice texts 0 size
    /\ embed_calls w' = embed_calls w ++ [slice texts 0 size; slice texts size size].
Proof.
  intros Hsz Hsize Hlong Hfirst Hvectors Hsecond Hruns Hfit.
  unfold add_texts, _validate_batch_size.
  assert (Hcheck : (_batch_size self <=? 0)%Z
                   || (MAX_BATCH_SIZE <? _batch_size self)%Z = false).
  { apply Bool.orb_false_iff. split; lia. }
  rewrite Hcheck. unfold mbind at 1. unfold ret at 1. rewrite <- Hsz.
  assert (Hpos : (0 < size)%nat) by lia.
  destruct (List.length texts) as [| [| rounds]] eqn:Hlen; [lia | lia |].
  cbn [add_texts_loop]. rewrite Hlen.
  assert (H0 : (0 <? S (S rounds))%nat = true) by reflexivity.
  rewrite H0. unfold mbind at 1. unfold call_embed_documents at 1. rewrite Hfirst.
  unfold mbind at 1.
  match goal with
  | |- context [_insert_embeddings self ?b vectors ?m ?d ?w1] =>
      destruct (insert_embeddings_runs self b vectors m d w1
                  ltac:(rewrite length_slice; lia) Hruns
                  (lists_fit_slice _ _ _ 0 size Hfit))
        as (ids1 & rows1 & w1' & Hrun1 & Hlen1 & Htable1 & Hcontent1 & Hcustom1 & Hcalls1)
  end.
  rewrite Hrun1. cbn [Nat.add].
  assert (H1 : (size <? S (S rounds))%nat = true) by (apply Nat.ltb_lt; lia).
  rewrite H1. unfold mbind at 1. unfold call_embed_documents at 1. rewrite Hsecond.
  exists rows1. eexists. split; [reflexivity |]. cbn [table embed_calls].
  cbn in Htable1, Hcalls1. rewrite Htable1, Hcalls1, <- app_assoc.
  repeat split. exact Hcontent1.
Qed.

Lemma failed_batch_keeps_earlier_batches_witness :
  exists rows w',
    add_texts (failing_store "third") (Some ["first"; "second"; "third"]) None None
      empty_world
    = (Raise (Exception_ "429"), w')
    /\ table w' = table empty_world ++ rows
    /\ map content rows = ["first"; "second"]
    /\ embed_calls w' = embed_calls empty_world ++ [["first"; "second"]; ["third"]].
Proof.
  apply (failed_batch_keeps_earlier_batches (failing_store "third")
           ["first"; "second"; "third"] None None [["1.0"; "0.0"]; ["1.0"; "0.0"]]
           (Exception_ "429") 2%nat empty_world).
  - reflexivity.
  - unfold MAX_BATCH_SIZE. simpl. lia.
  - simpl. lia.
  - reflexivity.
  - reflexivity.
  - reflexivity.
  - intros documents rows. reflexivity.
  - exact I.
Defined.

(** ** Delete and lookup by id in the relational store *)

(** When the server refuses the [DELETE] with an error of the driver,
    [delete] does not answer [False]: the cause is logged, no value was
    bound to [result], and the caller gets [UnboundLocalError].  The table
    is as it was. *)
Theorem refused_delete_raises_unbound_local (self : SQLServer_VectorStore)
  (ids : option (list string)) (e : exn) (cause : string) (w : World) :
  ids <> Some [] ->
  refuses (_bind self) (DeleteRows ids) (table w) = Some e ->
  cause_of_DBAPIError e = Some cause ->
  exists w',
    langchain_sqlserver.delete self ids w = (Raise (UnboundLocalError "result"), w')
    /\ table w' = table w
    /\ In ("error", cause) (log w').
Proof.
  intros Hids Hrefuses Hcause.
  assert (Hinner : exists w',
             _delete_texts_by_ids self ids w = (Raise (UnboundLocalError "result"), w')
             /\ table w' = table w /\ In ("error", cause) (log w')).
  { unfold _delete_texts_by_ids, try_except, mbind, send.
    destruct ids as [ids |]; cbn; rewrite Hrefuses; cbn; rewrite Hcause; cbn;
      eexists; (split; [reflexivity |]); cbn;
      (split; [reflexivity | apply in_or_app; right; left; reflexivity]). }
  destruct Hinner as (w' & Hrun & Htable & Hlog). exists w'.
  unfold langchain_sqlserver.delete.
  destruct ids as [[| id rest] |]; [contradiction | |];
    unfold mbind; rewrite Hrun; repeat split; assumption.
Qed.

Lemma refused_delete_raises_unbound_local_witness :
  exists w',
    langchain_sqlserver.delete (refusing_store (DBAPIError "08S01")) (Some ["a"])
      two_rows_world
    = (Raise (UnboundLocalError "result"), w')
    /\ table w' = table two_rows_world
    /\ In ("error", "08S01") (log w').
Proof.
  apply (refused_delete_raises_unbound_local (refusing_store (DBAPIError "08S01"))
           (Some ["a"]) (DBAPIError "08S01") "08S01" two_rows_world).
  - discriminate.
  - reflexivity.
  - reflexivity.
Defined.

(** [get_by_ids] never passes on an error of the driver: when the server
    refuses the lookup, the cause is logged and the answer is the empty
    list, as it is for ids that match nothing. *)
Theorem refused_lookup_finds_nothing (self : SQLServer_VectorStore)
  (ids : list string) (e : exn) (cause : string) (w : World) :
  (forall query rows, refuses (_bind self) (SelectRows query) rows = Some e) ->
  cause_of_DBAPIError e = Some cause ->
  exists w',
    get_by_ids self (Some ids) w = (Ok [], w')
    /\ table w' = table w
    /\ (ids <> [] -> log w' = log w ++ [("error", cause)]).
Proof.
  intros Hrefuses Hcause. unfold get_by_ids.
  destruct ids as [| id rest].
  - eexists. split; [reflexivity |]. split; [reflexivity | intros H; now destruct H].
  - unfold mbind, _get_documents_by_ids, try_except, mbind, send.
    rewrite Hrefuses, Hcause. cbn. eexists. split; [reflexivity |].
    split; reflexivity.
Qed.

Lemma refused_lookup_finds_nothing_witness :
  exists w',
    get_by_ids (refusing_store (DBAPIError "08S01")) (Some ["a"]) two_rows_world
    = (Ok [], w')
    /\ table w' = table two_rows_world
    /\ (["a"] <> [] -> log w' = log two_rows_world ++ [("error", "08S01")]).
Proof.
  apply (refused_lookup_finds_nothing (refusing_store (DBAPIError "08S01")) ["a"]
           (DBAPIError "08S01") "08S01" two_rows_world).
  - intros query rows. reflexivity.
  - reflexivity.
Defined.

Lemma get_by_ids_runs (self : SQLServer_VectorStore) (ids : list string) (w : World) :
  (forall query rows, refuses (_bind self) (SelectRows query) rows = None) ->
  exists w',
    get_by_ids self (Some ids) w
    = (Ok (map (fun item =>
                  (custom_id item,
                   mk_Document (PStr (content item)) (content_metadata item)))
             (filter (selected_by (Some ids)) (table w))), w')
    /\ table w' = table w.
Proof.
  intros Hruns. unfold get_by_ids. destruct ids as [| id rest].
  - assert (Hnone : filter (selected_by (Some [])) (table w) = []).
    { generalize (table w) as rows. induction rows as [| row rows IH]; [reflexivity |].
      cbn. destruct (custom_id row); exact IH. }
    rewrite Hnone. eexists. split; reflexivity.
  - unfold mbind, _get_documents_by_ids, try_except, mbind, send.
    rewrite Hruns. cbn. eexists. split; reflexivity.
Qed.

Lemma filter_none {A : Type} (p : A -> bool) (l : list A) :
  (forall x, In x l -> p x = false) -> filter p l = [].
Proof.
  induction l as [| x rest IH]; intros H; [reflexivity |]. cbn.
  rewrite (H x (or_introl eq_refl)). apply IH. intros y Hy. apply H. right. exact Hy.
Qed.


Lemma selected_by_incl (lookup ids : list string) (row : EmbeddingStore) :
  incl lookup ids ->
  selected_by (Some lookup) row = true -> selected_by (Some ids) row = true.
Proof.
  intros Hincl. unfold selected_by, mem_str. destruct (custom_id row) as [c |];
    [| discriminate].
  rewrite !existsb_exists. intros (x & Hx & Heq). exists x. split; [| exact Heq].
  apply Hincl. exact Hx.
Qed.

(** What [delete] took, [get_by_ids] no longer finds: after
    [delete(ids)] on a server that runs every statement, a lookup of any
    of those ids gives the empty list, and the rows with other ids are
    still in the table, in their order. *)
Theorem deleted_ids_are_not_found (self : SQLServer_VectorStore)
  (ids lookup : list string) (w : World) :
  (forall s rows, refuses (_bind self) s rows = None) ->
  ids <> [] ->
  incl lookup ids ->
  exists answer w1 w2,
    langchain_sqlserver.delete self (Some ids) w = (Ok answer, w1)
    /\ table w1 = filter (fun row => negb (selected_by (Some ids) row)) (table w)
    /\ get_by_ids self (Some lookup) w1 = (Ok [], w2).
Proof.
  intros Hruns Hids Hincl.
  destruct (delete_texts_by_ids_runs self (Some ids) w (Hruns _ _))
    as (w1 & Hrun & Htable & _).
  assert (Hdelete : exists answer w1',
             langchain_sqlserver.delete self (Some ids) w = (Ok answer, w1')
             /\ table w1' = table w1).
  { unfold langchain_sqlserver.delete. destruct ids as [| id rest]; [contradiction |].
    unfold mbind at 1. rewrite Hrun.
    destruct (Z.of_nat _ =? 0)%Z; eexists; eexists; (split; [reflexivity |]);
      reflexivity. }
  destruct Hdelete as (answer & w1' & Hdelete & Htable').
  destruct (get_by_ids_runs self lookup w1' (fun q rows => Hruns _ rows))
    as (w2 & Hget & _).
  exists answer, w1', w2. split; [exact Hdelete |].
  split; [congruence |]. rewrite Hget. f_equal.
  rewrite filter_none; [reflexivity |].
  intros row Hrow. rewrite Htable', Htable in Hrow. apply filter_In in Hrow.
  destruct Hrow as [_ Hrow]. apply Bool.negb_true_iff in Hrow.
  destruct (selected_by (Some lookup) row) eqn:Hsel; [| reflexivity].
  apply (selected_by_incl lookup ids row Hincl) in Hsel. congruence.
Qed.

Lemma deleted_ids_are_not_found_witness :
  exists answer w1 w2,
    langchain_sqlserver.delete example_store (Some ["a"; "c"]) two_rows_world
    = (Ok answer, w1)
    /\ table w1 = filter (fun row => negb (selected_by (Some ["a"; "c"]) row))
                    (table two_rows_world)
    /\ get_by_ids example_store (Some ["a"]) w1 = (Ok [], w2).
Proof.
  apply (deleted_ids_are_not_found example_store ["a"; "c"] ["a"] two_rows_world).
  - intros s rows. reflexivity.
  - discriminate.
  - intros x [<- | []]. left. reflexivity.
Defined.




(** ** The document store: the search entry points *)

(** A search type that is none of [vector], [full_text_search],
    [full_text_ranking] and [hybrid] is not refused: [similarity_search]
    answers the empty list, and neither the embedding provider's answer
    nor the container is asked for. *)
Theorem unknown_search_type_finds_nothing (self : AzureCosmosDBNoSqlVectorSearch)
  (_search_type query : string) (k : Z) (with_embedding : bool)
  (search_type : option string) (offset_limit : option string)
  (projection_mapping : option (list (string * string)))
  (full_text_rank_filter : option (list RankFilter)) (where_ : option string)
  (c : Container) :
  ~ In (search_type_or search_type _search_type)
      ["vector"; "full_text_search"; "full_text_ranking"; "hybrid"] ->
  langchain_azure_ai.similarity_search self _search_type query k with_embedding
    search_type offset_limit projection_mapping full_text_rank_filter where_ c
  = (Ok [], c).
Proof.
  intros Hnot.
  unfold langchain_azure_ai.similarity_search,
    langchain_azure_ai.similarity_search_with_score.
  set (chosen := search_type_or search_type _search_type) in *.
  assert (Hagain : search_type_or (Some chosen) _search_type = chosen).
  { unfold search_type_or, truthy_str. destruct chosen as [| a rest] eqn:Hc;
      [| reflexivity].
    subst chosen. unfold search_type_or in Hc.
    destruct (truthy_str search_type) eqn:Ht; [| exact Hc].
    destruct search_type as [[| a s] |]; try discriminate Ht. discriminate Hc. }
  rewrite Hagain.
  assert (Hneq : forall s, In s ["vector"; "full_text_search"; "full_text_ranking"; "hybrid"] ->
                           String.eqb chosen s = false).
  { intros s Hs. apply String.eqb_neq. intros ->. exact (Hnot Hs). }
  unfold mbind.
  rewrite !Hneq by (cbn; auto). reflexivity.
Qed.

Lemma unknown_search_type_finds_nothing_witness :
  langchain_azure_ai.similarity_search example_cosmos "vector" "red shoes" 4 false
    (Some "Vector") None None None None (mk_Container example_items [])
  = (Ok [], mk_Container example_items []).
Proof.
  apply (unknown_search_type_finds_nothing example_cosmos "vector" "red shoes" 4 false
           (Some "Vector") None None None None (mk_Container example_items [])).
  cbn. intros [H | [H | [H | [H | []]]]]; discriminate H.
Defined.

(** A ranking or hybrid search without a rank filter raises [ValueError]
    before the container is called; the hybrid search has embedded the
    query by then. *)
Theorem missing_rank_filter_makes_no_call (self : AzureCosmosDBNoSqlVectorSearch)
  (_search_type query search_type : string) (k : Z) (with_embedding : bool)
  (offset_limit : option string)
  (projection_mapping : option (list (string * string))) (where_ : option string)
  (c : Container) :
  search_type = "full_text_ranking"
  \/ (search_type = "hybrid"
      /\ exists embeddings, embed_query (_embedding self) query = Ok embeddings) ->
  exists message,
    langchain_azure_ai.similarity_search_with_score self _search_type query k
      with_embedding (Some search_type) offset_limit None projection_mapping where_ c
    = (Raise (ValueError message), c).
Proof.
  intros [-> | [-> [embeddings Hembed]]];
    unfold langchain_azure_ai.similarity_search_with_score; cbn -[_construct_query].
  - unfold full_text_ranking, mbind, lift. eexists. reflexivity.
  - unfold hybrid_search_with_score, mbind, lift. rewrite Hembed.
    eexists. reflexivity.
Qed.

Lemma missing_rank_filter_makes_no_call_witness :
  exists message,
    langchain_azure_ai.similarity_search_with_score example_cosmos "vector"
      "red shoes" 4 false (Some "hybrid") None None None None
      (mk_Container example_items [])
    = (Raise (ValueError message), mk_Container example_items []).
Proof.
  apply (missing_rank_filter_makes_no_call example_cosmos "vector" "red shoes"
           "hybrid" 4 false None None None (mk_Container example_items [])).
  right. split; [reflexivity |]. eexists. reflexivity.
Defined.

(** With several rank filters, or none in the list, the full-text ranking
    query is only the [ORDER BY RANK RRF] clause and the offset: the
    [SELECT], the limit, the projection and the [WHERE] text built before
    are dropped, so [k], the projection mapping and [where] do not reach
    the container, and no parameter is bound. *)
Theorem several_rank_filters_drop_the_select (self : AzureCosmosDBNoSqlVectorSearch)
  (k : Z) (embeddings : option Vector) (filters : list RankFilter)
  (offset_limit : option string) (projection_mapping : option (list (string * string)))
  (with_embedding : bool) (where_ : option string) :
  List.length filters <> 1%nat ->
  _construct_query self k "full_text_ranking" embeddings (Some filters) offset_limit
    projection_mapping with_embedding where_
  = Ok (" ORDER BY RANK RRF("
        +++ join ", " (map (rank_component (_table_alias self)) filters) +++ ")"
        +++ match offset_limit with
            | Some offset_limit => " " +++ offset_limit
            | None => ""
            end,
        []).
Proof.
  intros Hlen. unfold _construct_query.
  change (String.eqb "full_text_ranking" "full_text_ranking") with true.
  change (String.eqb "full_text_ranking" "full_text_search"
          || String.eqb "full_text_ranking" "vector") with false.
  cbv iota.
  assert (Happ : forall a b c : string, (a +++ b) +++ c = a +++ b +++ c).
  { intros a b c'. induction a as [| ch a IH]; [reflexivity |]. cbn. now rewrite IH. }
  assert (Hnil : forall a : string, a +++ "" = a).
  { induction a as [| ch a IH]; [reflexivity |]. cbn. now rewrite IH. }
  destruct filters as [| f [| g rest]]; [| contradiction |];
    cbn [bind]; destruct offset_limit as [offset |];
    rewrite ?Happ, ?Hnil; reflexivity.
Qed.

Lemma several_rank_filters_drop_the_select_witness :
  _construct_query example_cosmos 4 "full_text_ranking" None
    (Some [mk_RankFilter "text" "red shoes"; mk_RankFilter "title" "sale"]) None None
    false (Some "c.year = 2024")
  = Ok (" ORDER BY RANK RRF("
        +++ join ", " (map (rank_component (_table_alias example_cosmos))
                         [mk_RankFilter "text" "red shoes"; mk_RankFilter "title" "sale"])
        +++ ")" +++ "",
        []).
Proof.
  apply (several_rank_filters_drop_the_select example_cosmos 4 None
           [mk_RankFilter "text" "red shoes"; mk_RankFilter "title" "sale"] None None
           false (Some "c.year = 2024")).
  discriminate.
Defined.

(** ** The document store: mapping, marginal relevance and ingest *)

Lemma document_of_item_content (self : AzureCosmosDBNoSqlVectorSearch)
  (search_type : string) (with_embedding : bool)
  (projection_mapping : option (list (string * string))) (item : Item)
  (ds : Document * pyval) :
  document_of_item self search_type with_embedding projection_mapping item = Ok ds ->
  dict_get (text_field self) item = Some (page_content (fst ds)).
Proof.
  unfold document_of_item. intros H. ok_steps H.
  match goal with
  | Hg : item_get item (text_field self) = Ok ?t |- _ =>
      unfold item_get in Hg;
      destruct (dict_get (text_field self) item) as [v |]; [| discriminate Hg];
      injection Hg as ->
  end.
  match goal with
  | p : (pyval * pyval)%type |- _ => destruct p as [s m]
  end.
  cbn in H. injection H as <-. reflexivity.
Qed.

(** [_execute_query] makes one call to the container and maps what it
    answers item by item: one document per item, in the order of the
    answer, each with the item's text field as its content.  The items
    held are not changed. *)
Theorem mapped_rows_keep_order_and_content (self : AzureCosmosDBNoSqlVectorSearch)
  (query search_type : string) (parameters : list (string * pyval))
  (with_embedding : bool) (projection_mapping : option (list (string * string)))
  (c c' : Container) (docs_and_scores : list (Document * pyval)) :
  _execute_query self query search_type parameters with_embedding projection_mapping c
  = (Ok docs_and_scores, c') ->
  exists rows,
    query_items (_container self) query parameters (items c) = Ok rows
    /\ Forall2 (fun item ds =>
                  dict_get (text_field self) item = Some (page_content (fst ds)))
         rows docs_and_scores
    /\ calls c' = calls c ++ [QueryItems query parameters]
    /\ items c' = items c.
Proof.
  unfold _execute_query, call_query_items, mbind, lift.
  destruct (query_items (_container self) query parameters (items c))
    as [rows | e]; [| discriminate].
  destruct (for_each _ rows) as [out | e] eqn:Hout; [| discriminate].
  intros [= <- <-]. exists rows. split; [reflexivity |].
  split; [| split; reflexivity].
  apply for_each_Forall2 in Hout.
  induction Hout as [| item ds rows out Hitem _ IH]; constructor; [| exact IH].
  eapply document_of_item_content. exact Hitem.
Qed.

Lemma mapped_rows_keep_order_and_content_witness :
  exists rows,
    query_items (_container example_cosmos) "SELECT" [] example_items = Ok rows
    /\ Forall2 (fun item ds =>
                  dict_get (text_field example_cosmos) item
                  = Some (page_content (fst ds)))
         rows
         [(mk_Document (PStr "hello") (PDict [("page", PInt 3); ("id", PStr "1")]),
           PFloat "0.9");
          (mk_Document (PStr "world") (PDict [("id", PStr "2")]), PFloat "0.25")]
    /\ calls (mk_Container example_items [QueryItems "SELECT" []])
       = calls (mk_Container example_items []) ++ [QueryItems "SELECT" []]
    /\ items (mk_Container example_items [QueryItems "SELECT" []])
       = items (mk_Container example_items []).
Proof.
  apply (mapped_rows_keep_order_and_content example_cosmos "SELECT" "vector" [] false
           None (mk_Container example_items [])
           (mk_Container example_items [QueryItems "SELECT" []])).
  reflexivity.
Defined.

Lemma dict_get_set_other (key other : string) (v : pyval) (d : list (string * pyval)) :
  key <> other -> dict_get key (dict_set other v d) = dict_get key d.
Proof.
  intros Hneq. induction d as [| [k x] rest IH]; cbn.
  - destruct (String.eqb_spec other key) as [-> | _]; [contradiction | reflexivity].
  - destruct (String.eqb_spec k other) as [-> | Hk]; cbn.
    + destruct (String.eqb_spec other key) as [-> | _]; [contradiction | reflexivity].
    + destruct (String.eqb k key); [reflexivity | exact IH].
Qed.




Lemma dict_get_set_same (key : string) (v : pyval) (d : list (string * pyval)) :
  dict_get key (dict_set key v d) = Some v.
Proof.
  induction d as [| [k x] rest IH]; cbn.
  - rewrite String.eqb_refl. reflexivity.
  - destruct (String.eqb k key) eqn:Hk; cbn; rewrite Hk; [reflexivity | exact IH].
Qed.

Lemma dict_get_set_kept (key other : string) (v : pyval) (d : list (string * pyval)) :
  dict_get key d <> None -> dict_get key (dict_set other v d) <> None.
Proof.
  destruct (String.eqb_spec key other) as [-> | Hneq].
  - intros _. rewrite dict_get_set_same. discriminate.
  - rewrite (dict_get_set_other _ _ _ _ Hneq). trivial.
Qed.

Lemma length_zip3 {A B C : Type} (xs : list A) (ys : list B) (zs : list C) :
  List.length (zip3 xs ys zs)
  = Nat.min (List.length xs) (Nat.min (List.length ys) (List.length zs)).
Proof.
  revert ys zs. induction xs as [| x xs IH]; intros [| y ys] [| z zs]; cbn;
    try reflexivity.
  rewrite IH. reflexivity.
Qed.

Lemma map_fst_zip3 {A B C : Type} (xs : list A) (ys : list B) (zs : list C) :
  map (fun tme => fst (fst tme)) (zip3 xs ys zs)
  = firstn (List.length (zip3 xs ys zs)) xs.
Proof.
  revert ys zs. induction xs as [| x xs IH]; intros [| y ys] [| z zs]; cbn;
    try reflexivity.
  rewrite IH. reflexivity.
Qed.

Lemma to_insert_texts (self : AzureCosmosDBNoSqlVectorSearch)
  (triples : list (string * pyval * Vector)) :
  text_field self <> embedding_field self ->
  text_field self <> "metadata" ->
  forall next,
    List.length (to_insert self triples next) = List.length triples
    /\ map (dict_get (text_field self)) (to_insert self triples next)
       = map (fun tme => Some (PStr (fst (fst tme)))) triples
    /\ Forall (fun item => dict_get "id" item <> None) (to_insert self triples next).
Proof.
  intros Hfield Hmeta. induction triples as [| [[t m] e] rest IH]; intros next.
  - repeat split. constructor.
  - destruct (IH (S next)) as (Hlen & Htexts & Hids). cbn [to_insert List.length map].
    rewrite Hlen, Htexts. split; [reflexivity |]. split.
    + f_equal. unfold item_to_insert.
      rewrite !dict_get_set_other by assumption. apply dict_get_set_same.
    + constructor; [| exact Hids]. unfold item_to_insert.
      repeat apply dict_get_set_kept. cbn. discriminate.
Qed.

Lemma create_each_runs (create_item : Item -> list Item -> result (Item * list Item))
  (to_insert : list Item) :
  (forall item held, create_item item held = Ok (item, held ++ [item])) ->
  Forall (fun item => dict_get "id" item <> None) to_insert ->
  forall doc_ids s, exists out s',
    create_each create_item to_insert doc_ids s = (Ok (doc_ids ++ out), s')
    /\ List.length out = List.length to_insert
    /\ held s' = held s ++ to_insert.
Proof.
  intros Hcreate Hids. induction Hids as [| item rest Hid _ IH]; intros doc_ids s.
  - exists [], s. cbn. rewrite !app_nil_r. repeat split.
  - cbn [create_each]. unfold mbind at 1. rewrite Hcreate. unfold item_get.
    destruct (dict_get "id" item) as [id |]; [| contradiction].
    destruct (IH (doc_ids ++ [id]) (mk_Ingest (held s ++ [item]) (drawn s)))
      as (out & s' & Hrun & Hlen & Hheld).
    exists (id :: out), s'. rewrite <- app_assoc in Hrun.
    split; [exact Hrun |]. split; [cbn; now rewrite Hlen |].
    rewrite Hheld. cbn. rewrite <- app_assoc. reflexivity.
Qed.

(** The document store ingests as many texts as it has metadatas: texts,
    metadatas and vectors are zipped, so with fewer metadatas than texts
    the texts beyond them are embedded but not stored, and no error is
    raised.  The stored items carry the first texts, in order, and one id
    comes back per stored item. *)
Theorem texts_beyond_metadatas_are_dropped (self : AzureCosmosDBNoSqlVectorSearch)
  (create_item : Item -> list Item -> result (Item * list Item))
  (texts : list string) (metadatas : list pyval) (embeddings : list Vector)
  (s : Ingest) :
  texts <> [] ->
  text_field self <> embedding_field self ->
  text_field self <> "metadata" ->
  embed_documents (_embedding self) texts = Ok embeddings ->
  List.length embeddings = List.length texts ->
  (forall item held, create_item item held = Ok (item, held ++ [item])) ->
  exists out added s',
    langchain_azure_ai.add_texts self create_item texts (Some metadatas) s
    = (Ok out, s')
    /\ held s' = held s ++ added
    /\ List.length out = Nat.min (List.length texts) (List.length metadatas)
    /\ map (dict_get (text_field self)) added
       = map (fun t => Some (PStr t))
           (firstn (Nat.min (List.length texts) (List.length metadatas)) texts).
Proof.
  intros Htexts Hfield Hmeta Hembed Hlen Hcreate.
  unfold langchain_azure_ai.add_texts, _insert_texts.
  destruct texts as [| t rest]; [contradiction |].
  set (all := t :: rest) in *.
  unfold mbind at 1. unfold lift at 1. rewrite Hembed. unfold mbind at 1.
  set (triples := zip3 all metadatas embeddings).
  destruct (to_insert_texts self triples Hfield Hmeta (drawn s))
    as (Hcount & Hcontent & Hids).
  destruct (create_each_runs create_item _ Hcreate Hids []
              (mk_Ingest (held s) (drawn s + List.length triples)))
    as (out & s' & Hrun & Hout & Hheld).
  rewrite Hrun. exists out, (to_insert self triples (drawn s)), s'.
  assert (Hn : List.length triples
               = Nat.min (List.length all) (List.length metadatas)).
  { subst triples. rewrite length_zip3. lia. }
  split; [reflexivity |]. split; [exact Hheld |].
  split; [rewrite Hout, Hcount; exact Hn |].
  rewrite Hcontent, <- Hn. subst triples. rewrite <- map_fst_zip3, map_map.
  reflexivity.
Qed.

Lemma texts_beyond_metadatas_are_dropped_witness :
  exists out added s',
    langchain_azure_ai.add_texts example_cosmos
      (fun item held => Ok (item, held ++ [item]))
      ["first"; "second"; "third"] (Some [PDict []; PDict [("page", PInt 3)]])
      (mk_Ingest [] 0)
    = (Ok out, s')
    /\ held s' = held (mk_Ingest [] 0) ++ added
    /\ List.length out
       = Nat.min (List.length ["first"; "second"; "third"])
           (List.length [PDict []; PDict [("page", PInt 3)]])
    /\ map (dict_get (text_field example_cosmos)) added
       = map (fun t => Some (PStr t))
           (firstn (Nat.min (List.length ["first"; "second"; "third"])
                      (List.length [PDict []; PDict [("page", PInt 3)]]))
              ["first"; "second"; "third"]).
Proof.
  apply (texts_beyond_metadatas_are_dropped example_cosmos
           (fun item held => Ok (item, held ++ [item]))
           ["first"; "second"; "third"] [PDict []; PDict [("page", PInt 3)]]
           [["1.0"; "0.0"]; ["1.0"; "0.0"]; ["1.0"; "0.0"]] (mk_Ingest [] 0)).
  - discriminate.
  - discriminate.
  - discriminate.
  - reflexivity.
  - reflexivity.
  - intros item held. reflexivity.
Defined.

(** ** The embeddings model: batches *)

Lemma embed_loop_runs (self : langchain_azure_ai_embeddings.AzureAIEmbeddingsModel)
  (g : list string -> list Vector) (texts : list string)
  (input_type : langchain_azure_ai_embeddings.EmbeddingInputType) (batch_size : nat) :
  (0 < batch_size)%nat ->
  (forall input t p,
      langchain_azure_ai_embeddings._client_embed self input t p = Ok (g input)) ->
  forall (rounds text_batch : nat) (yielded : list Vector)
         (calls : list langchain_azure_ai_embeddings.embed_call),
    langchain_azure_ai_embeddings.embed_loop rounds self texts input_type batch_size
      text_batch yielded calls
    = (Ok (yielded
           ++ List.concat (map g (batches_from rounds batch_size (skipn text_batch texts)))),
       calls
       ++ map (fun batch =>
                 langchain_azure_ai_embeddings.mk_embed_call batch
                   (langchain_azure_ai_embeddings.input_type_or self input_type)
                   (langchain_azure_ai_embeddings._get_model_params self []))
            (batches_from rounds batch_size (skipn text_batch texts))).
Proof.
  intros Hsize Hclient.
  induction rounds as [| rounds IH]; intros text_batch yielded calls.
  - cbn. rewrite !app_nil_r. reflexivity.
  - cbn [langchain_azure_ai_embeddings.embed_loop batches_from].
    destruct (Nat.ltb_spec text_batch (List.length texts)) as [Hlt | Hge].
    + destruct (skipn text_batch texts) as [| t rest] eqn:Hskip.
      { apply (f_equal (@List.length string)) in Hskip.
        rewrite length_skipn in Hskip. cbn in Hskip. lia. }
      unfold mbind. rewrite Hclient, IH. unfold slice. rewrite Hskip.
      assert (Hnext : skipn (text_batch + batch_size) texts
                      = skipn batch_size (t :: rest)).
      { rewrite <- Hskip, skipn_skipn. f_equal. lia. }
      rewrite Hnext. cbn [map List.concat]. rewrite <- !app_assoc. reflexivity.
    + rewrite (skipn_all2 texts) by lia. cbn. rewrite !app_nil_r. reflexivity.
Qed.

Lemma concat_map_map {A B : Type} (f : A -> B) (ls : list (list A)) :
  List.concat (map (map f) ls) = map f (List.concat ls).
Proof.
  induction ls as [| l ls IH]; [reflexivity |]. cbn. rewrite IH, map_app. reflexivity.
Qed.

(** With a positive batch size and a client that embeds text by text,
    the batching does not show in the answer of [embed_documents]: it is
    the vector of each text, in input order.  The client is called once
    per consecutive batch of [embed_batch_size] texts, with the model's
    own input type when it has one and [DOCUMENT] otherwise. *)
Theorem embed_documents_in_batches
  (self : langchain_azure_ai_embeddings.AzureAIEmbeddingsModel)
  (f : string -> Vector) (texts : list string)
  (calls : list langchain_azure_ai_embeddings.embed_call) :
  (0 < langchain_azure_ai_embeddings.embed_batch_size self)%Z ->
  (forall input t p,
      langchain_azure_ai_embeddings._client_embed self input t p = Ok (map f input)) ->
  langchain_azure_ai_embeddings.embed_documents self texts calls
  = (Ok (map f texts),
     calls
     ++ map (fun batch =>
               langchain_azure_ai_embeddings.mk_embed_call batch
                 (langchain_azure_ai_embeddings.input_type_or self
                    langchain_azure_ai_embeddings.DOCUMENT)
                 (langchain_azure_ai_embeddings._get_model_params self []))
          (batches (Z.to_nat (langchain_azure_ai_embeddings.embed_batch_size self))
             texts)).
Proof.
  intros Hsize Hclient.
  unfold langchain_azure_ai_embeddings.embed_documents,
    langchain_azure_ai_embeddings._embed.
  destruct (Z.eqb_spec (langchain_azure_ai_embeddings.embed_batch_size self) 0)
    as [H0 | _]; [lia |].
  destruct (Z.ltb_spec (langchain_azure_ai_embeddings.embed_batch_size self) 0)
    as [Hneg | _]; [lia |].
  assert (Hpos : (0 < Z.to_nat (langchain_azure_ai_embeddings.embed_batch_size self))%nat)
    by lia.
  rewrite (embed_loop_runs self (map f) texts _ _ Hpos Hclient).
  cbn [skipn app].
  rewrite concat_map_map.
  unfold batches.
  destruct (batches_from_cover _ Hpos (List.length texts) texts (le_n _)) as [Hcat _].
  rewrite Hcat. reflexivity.
Qed.

Lemma embed_documents_in_batches_witness :
  langchain_azure_ai_embeddings.embed_documents (example_model 2)
    ["a"; "bb"; "ccc"] []
  = (Ok (map (fun t => [str_of_nat (String.length t)]) ["a"; "bb"; "ccc"]),
     []
     ++ map (fun batch =>
               langchain_azure_ai_embeddings.mk_embed_call batch
                 (langchain_azure_ai_embeddings.input_type_or (example_model 2)
                    langchain_azure_ai_embeddings.DOCUMENT)
                 (langchain_azure_ai_embeddings._get_model_params (example_model 2) []))
          (batches
             (Z.to_nat (langchain_azure_ai_embeddings.embed_batch_size (example_model 2)))
             ["a"; "bb"; "ccc"])).
Proof.
  apply (embed_documents_in_batches (example_model 2)
           (fun t => [str_of_nat (String.length t)]) ["a"; "bb"; "ccc"] []).
  - simpl. lia.
  - intros input t p. reflexivity.
Defined.

(** A negative batch size is not refused: [embed_documents] then answers
    the empty list for any texts, without a call to the client, and
    [embed_query] raises [IndexError]. *)
Theorem negative_batch_size_embeds_nothing
  (self : langchain_azure_ai_embeddings.AzureAIEmbeddingsModel)
  (texts : list string) (query : string)
  (calls : list langchain_azure_ai_embeddings.embed_call) :
  (langchain_azure_ai_embeddings.embed_batch_size self < 0)%Z ->
  langchain_azure_ai_embeddings.embed_documents self texts calls = (Ok [], calls)
  /\ langchain_azure_ai_embeddings.embed_query self query calls
     = (Raise (IndexError "list index out of range"), calls).
Proof.
  intros Hneg.
  unfold langchain_azure_ai_embeddings.embed_query,
    langchain_azure_ai_embeddings.embed_documents,
    langchain_azure_ai_embeddings._embed, mbind.
  destruct (Z.eqb_spec (langchain_azure_ai_embeddings.embed_batch_size self) 0)
    as [H0 | _]; [lia |].
  destruct (Z.ltb_spec (langchain_azure_ai_embeddings.embed_batch_size self) 0)
    as [_ | Hpos]; [| lia].
  split; reflexivity.
Qed.

Lemma negative_batch_size_embeds_nothing_witness :
  langchain_azure_ai_embeddings.embed_documents (example_model (-1)) ["a"; "bb"] []
  = (Ok [], [])
  /\ langchain_azure_ai_embeddings.embed_query (example_model (-1)) "a" []
     = (Raise (IndexError "list index out of range"), []).
Proof.
  apply (negative_batch_size_embeds_nothing (example_model (-1)) ["a"; "bb"] "a" []).
  simpl. lia.
Defined.

(** ** The search entry points of the relational store *)

(** [similarity_search] is [similarity_search_with_score] without the
    scores: the same documents in the same order, the same error when
    there is one, and the same statements, log and table afterwards. *)
Theorem similarity_search_drops_the_scores (self : SQLServer_VectorStore)
  (query : string) (k : Z) (filter : pyval) (w : World) :
  similarity_search self query k filter w
  = (match fst (similarity_search_with_score self query k filter w) with
     | Ok docs_and_scores => Ok (map fst docs_and_scores)
     | Raise e => Raise e
     end,
     snd (similarity_search_with_score self query k filter w)).
Proof.
  unfold similarity_search, similarity_search_with_score,
    similarity_search_by_vector, call_embed_query.
  unfold mbind at 1 3 4. unfold lift.
  destruct (embed_query (embedding_function self) query) as [embedded_query | e];
    [| reflexivity].
  unfold mbind at 1.
  destruct (similarity_search_by_vector_with_score self embedded_query k filter w)
    as [[docs | e] w']; reflexivity.
Qed.
